(** * helpers/disk.py: block devices, partitions, partition-table sessions
      and luks2 volumes

    A shallow embedding of [helpers/disk.py].  Python strings and byte
    strings are [string]; Python ints are [Z]; dicts keyed by strings are
    [gmap string _].  Every method runs in a state-and-exception monad
    whose state carries the live system (the host) and the trace of the
    commands and kernel calls issued so far; a method of a mutable object
    also threads the object itself.  The classes come first, then
    [all_disks], [BlockDevice.partitions], [luks2.encrypt] and
    [device_state], then the properties. *)

From Stdlib Require Import ZArith String Ascii List.
From stdpp Require Import base gmap strings pretty sorting.

Open Scope Z_scope.
Open Scope string_scope.

(** ** Python values that occur in the module *)

(** The scalar values of a decoded JSON record ([lsblk], [losetup]) and the
    values the methods return: [None], booleans, integers and strings. *)
Inductive scalar : Type :=
| SNone : scalar
| SBool : bool -> scalar
| SInt : Z -> scalar
| SStr : string -> scalar.

(** [x == s] for a value [x] and a [str] [s]. *)
Definition eq_str (x : scalar) (s : string) : bool :=
  match x with
  | SStr t => String.eqb t s
  | _ => false
  end.

(** [f'{x}'], that is [str(x)]. *)
Definition fmt (x : scalar) : string :=
  match x with
  | SNone => "None"
  | SBool true => "True"
  | SBool false => "False"
  | SInt z => pretty z
  | SStr s => s
  end.

(** Truth value of a scalar, as tested by [if x], [not x] and the [with]
    statement. *)
Definition truthy (x : scalar) : bool :=
  match x with
  | SNone => false
  | SBool b => b
  | SInt z => negb (Z.eqb z 0)
  | SStr s => negb (String.eqb s "")
  end.

(** An optional string argument as tested by [if x] and [not x]: [None] and
    the empty string are false, and a true one is a non-empty string. *)
Definition nonempty (x : option string) : option string :=
  match x with
  | None => None
  | Some s => if String.eqb s "" then None else Some s
  end.

(** [needle in hay] on (byte) strings: [needle] occurs as a substring. *)
Fixpoint contains (needle hay : string) : bool :=
  String.prefix needle hay
  || match hay with
     | EmptyString => false
     | String _ rest => contains needle rest
     end.

(** The double-quote character as a one-character string. *)
Definition dquote : string := String (ascii_of_nat 34) EmptyString.

(** [os.path.basename]: what follows the last ['/']. *)
Fixpoint basename (p : string) : string :=
  match p with
  | EmptyString => EmptyString
  | String c rest =>
      if contains "/" rest then basename rest
      else if Ascii.eqb c "/" then rest
      else p
  end.

(** ** Exceptions *)

Inductive exn : Type :=
| DiskError (args : list string)
| OSError (errno : Z) (msg : string)
| KeyError (arg : string)
| ValueError.

Inductive result (A : Type) : Type :=
| Ok (a : A)
| Raise (e : exn).
Arguments Ok {A} a.
Arguments Raise {A} e.

(** ** The host: the external collaborators of the module *)

(** What [sys_command] hands back: the joined output and the exit code. *)
Record CmdResult : Type := mkCmdResult {
  output : string;
  exit_code : Z
}.

(** A decoded structured query output: a top-level object whose keys
    ([loopdevices], [blockdevices]) carry arrays of flat records. *)
Abbreviation table := (gmap string (list (gmap string scalar))).

Class Host : Type := {
  World : Type;
  (** [helpers.general.sys_command(cmd, hide_from_log=...)]; the keyword
      is [None] where the call does not pass it *)
  sys_command : string -> option bool -> World -> CmdResult * World;
  (** [json.loads(o.decode('UTF_8'))]; [None] when decoding or parsing
      raises (a [ValueError] in both cases) *)
  json_loads : string -> option table;
  (** [os.path.islink] *)
  islink : string -> World -> bool;
  (** [os.path.abspath] *)
  abspath : string -> World -> string;
  (** [libc.mount(source, target, fs, flags, options)] *)
  libc_mount : string -> string -> string -> Z -> string -> World -> Z * World;
  (** [ctypes.get_errno()] *)
  get_errno : World -> Z;
  (** [os.strerror] *)
  strerror : Z -> string
}.

(** What the module does to the outside, in order. *)
Inductive event : Type :=
| ECmd (cmd : string)
| EMount (source target fs : string) (flags : Z) (options : string).

Record Sys `{Host} : Type := mkSys {
  world : World;
  trace : list event
}.
Arguments mkSys {_} _ _.

(** ** The monad: state passing with exceptions *)

Definition M (S A : Type) : Type := S -> result A * S.

Definition ret {S A} (a : A) : M S A := fun s => (Ok a, s).

Definition raise {S A} (e : exn) : M S A := fun s => (Raise e, s).

Definition bind {S A B} (m : M S A) (k : A -> M S B) : M S B :=
  fun s =>
    match m s with
    | (Ok a, s') => k a s'
    | (Raise e, s') => (Raise e, s')
    end.

Declare Scope py_scope.
Delimit Scope py_scope with py.
Notation "x <- m ;; k" := (bind m (fun x => k))
  (at level 100, m at next level, right associativity) : py_scope.
Notation "m ;;; k" := (bind m (fun _ => k))
  (at level 100, right associativity) : py_scope.

(** A computation on the system, run by a method of a mutable object. *)
Definition lift {O S A} (m : M S A) : M (O * S) A :=
  fun os =>
    match m (snd os) with
    | (r, s') => (r, (fst os, s'))
    end.

Definition get_self {O S} : M (O * S) O := fun os => (Ok (fst os), os).

(** An expression statement: the value is computed and dropped. *)
Definition discard {S A} (a : A) : M S unit := fun s => (Ok tt, s).

Definition set_self {O S} (o : O) : M (O * S) unit :=
  fun os => (Ok tt, (o, snd os)).

(** [with mgr as c: body].  The exit step runs on every way out of the
    body; an exception raised in the body is dropped only when the exit
    step returns a true value, and an exception of the exit step itself
    takes its place.  The result is [None] when the exception was dropped. *)
Definition with_stmt {S C A} (enter : M S C) (exit : option exn -> M S scalar)
    (body : C -> M S A) : M S (option A) :=
  fun s =>
    match enter s with
    | (Raise e, s1) => (Raise e, s1)
    | (Ok c, s1) =>
        match body c s1 with
        | (Ok a, s2) =>
            match exit None s2 with
            | (Ok _, s3) => (Ok (Some a), s3)
            | (Raise e', s3) => (Raise e', s3)
            end
        | (Raise e, s2) =>
            match exit (Some e) s2 with
            | (Ok r, s3) => if truthy r then (Ok None, s3) else (Raise e, s3)
            | (Raise e', s3) => (Raise e', s3)
            end
        end
    end.

Section HostOps.
Context `{Host}.

(** One call of [sys_command]: the host runs the command, which is
    appended to the trace. *)
Definition exec (cmd : string) (hide_from_log : option bool) (s : Sys)
    : CmdResult * Sys :=
  match sys_command cmd hide_from_log (world s) with
  | (r, w) => (r, mkSys w (trace s ++ [ECmd cmd]))
  end.

(** [sys_command(cmd)] as a computation; [output] of its value is
    [b''.join(...)] of it. *)
Definition run (cmd : string) (hide_from_log : option bool)
    : M Sys CmdResult :=
  fun s =>
    match exec cmd hide_from_log s with
    | (r, s') => (Ok r, s')
    end.

Definition os_path_islink (p : string) : M Sys bool :=
  fun s => (Ok (islink p (world s)), s).

Definition os_path_abspath (p : string) : M Sys string :=
  fun s => (Ok (abspath p (world s)), s).

Definition mount_syscall (source target fs : string) (flags : Z)
    (options : string) : M Sys Z :=
  fun s =>
    match libc_mount source target fs flags options (world s) with
    | (r, w) =>
        (Ok r, mkSys w (trace s ++ [EMount source target fs flags options]))
    end.

Definition ctypes_get_errno : M Sys Z :=
  fun s => (Ok (get_errno (world s)), s).
End HostOps.

(** ** class BlockDevice *)

Module BlockDevice.
Record t : Type := mk {
  path : string;
  info : gmap string scalar
}.

(** The loop of [device] over the [loopdevices] array. *)
Fixpoint find_back_file (self_path : string)
    (drives : list (gmap string scalar)) : result scalar :=
  match drives with
  | [] => Ok SNone
  | drive :: rest =>
      match drive !! "name" with
      | None => Raise (KeyError "name")
      | Some name =>
          if eq_str name self_path then
            match drive !! "back-file" with
            | None => Raise (KeyError "back-file")
            | Some f => Ok f
            end
          else find_back_file self_path rest
      end
  end.

Section Methods.
Context `{Host}.
Open Scope py_scope.

Definition device (self : t) : M Sys scalar :=
  match info self !! "type" with
  | None =>
      raise (DiskError
        ["Could not locate backplane info for " +:+ dquote +:+ path self
         +:+ dquote])
  | Some ty =>
      if eq_str ty "loop" then
        o <- run "losetup --json" (Some true) ;;
        match json_loads (output o) with
        | None => raise ValueError
        | Some j =>
            match j !! "loopdevices" with
            | None => raise (KeyError "loopdevices")
            | Some drives =>
                match find_back_file (path self) drives with
                | Ok v => ret v
                | Raise e => raise e
                end
            end
        end
      else if eq_str ty "disk" then ret (SStr (path self))
      else if eq_str ty "crypt" then
        match info self !! "pkname" with
        | None =>
            raise (DiskError
              ["A crypt device (" +:+ path self
               +:+ ") without a parent kernel device name."])
        | Some pk => ret (SStr ("/dev/" +:+ fmt pk))
        end
      else ret SNone
  end.

Definition __repr__ (self : t) : M Sys string :=
  d <- device self ;;
  ret ("BlockDevice(" +:+ fmt d +:+ ")").

Definition __getitem__ (self : t) (key : string) : M Sys scalar :=
  match info self !! key with
  | None =>
      r <- __repr__ self ;;
      raise (KeyError
        (r +:+ " does not contain information: " +:+ dquote +:+ key
         +:+ dquote))
  | Some v => ret v
  end.
End Methods.
End BlockDevice.

(** ** class Partition *)

Module Partition.
Record t : Type := mk {
  path : string;
  part_id : string;
  mountpoint : option string;
  filesystem : option string;
  size : scalar
}.

Definition __init__ (path : string) (part_id : option string)
    (size : scalar) : t :=
  let part_id :=
    match nonempty part_id with
    | None => basename path
    | Some i => i
    end in
  mk path part_id None None size.

Definition __repr__ (self : t) : string := "Partition(" +:+ path self +:+ ")".

(** [self.filesystem = fs] and [self.mountpoint = mp]. *)
Definition set_filesystem (fs : option string) (self : t) : t :=
  mk (path self) (part_id self) (mountpoint self) fs (size self).

Definition set_mountpoint (mp : option string) (self : t) : t :=
  mk (path self) (part_id self) mp (filesystem self) (size self).

Section Methods.
Context `{Host}.
Open Scope py_scope.

Definition format (fs : string) : M (t * Sys) scalar :=
  self <- get_self ;;
  if String.eqb fs "btrfs" then
    o <- lift (run ("/usr/bin/mkfs.btrfs -f " +:+ path self) None) ;;
    if negb (contains "UUID" (output o)) then ret (SBool false)
    else
      set_self (set_filesystem (Some "btrfs") self) ;;;
      ret (SBool true)
  else if String.eqb fs "fat32" then
    o <- lift (run ("/usr/bin/mkfs.vfat -F32 " +:+ path self) None) ;;
    if (negb (contains "mkfs.fat" (output o))
        && negb (contains "mkfs.vfat" (output o)))
       || contains "command not found" (output o)
    then ret SNone
    else ret (SBool true)
  else
    raise (DiskError ["Fileformat " +:+ fs +:+ " is not yet implemented."]).

Definition mount (target : string) (fs : option string)
    (options : string) : M (t * Sys) unit :=
  self <- get_self ;;
  fs <- match nonempty fs with
        | Some f => ret f
        | None =>
            match nonempty (filesystem self) with
            | None =>
                raise (DiskError
                  ["Need to format (or define) the filesystem before mounting."])
            | Some f => ret f
            end
        end ;;
  r <- lift (mount_syscall (path self) target fs 0 options) ;;
  if Z.ltb r 0 then
    errno <- lift ctypes_get_errno ;;
    raise (OSError errno
      ("Error mounting " +:+ path self +:+ " (" +:+ fs +:+ ") on "
       +:+ target +:+ " with options '" +:+ options +:+ "': "
       +:+ strerror errno))
  else set_self (set_mountpoint (Some target) self).
End Methods.
End Partition.

(** ** class Filesystem: the partition-table session *)

Definition GPT : Z := 1.

Module Filesystem.
Record t : Type := mk {
  blockdevice : BlockDevice.t;
  mode : Z
}.

Definition __init__ (blockdevice : BlockDevice.t) (mode : option Z) : t :=
  mk blockdevice (default GPT mode).

Section Methods.
Context `{Host}.
Open Scope py_scope.

Definition __enter__ (self : t) : M Sys t :=
  if Z.eqb (mode self) GPT then
    d <- BlockDevice.device (blockdevice self) ;;
    x <- run ("/usr/bin/parted -s " +:+ fmt d +:+ " mklabel gpt") None ;;
    if Z.eqb (exit_code x) 0 then ret self
    else
      d <- BlockDevice.device (blockdevice self) ;;
      raise (DiskError
        ["Problem setting the partition format to GPT:";
         "/usr/bin/parted -s " +:+ fmt d +:+ " mklabel gpt"])
  else
    raise (DiskError
      ["Unknown mode selected to format in: " +:+ pretty (mode self)]).

(** [__exit__]: [exc] is the exception the scope is left with, if any;
    the method falls off its end and so returns [None]. *)
Definition __exit__ (self : t) (exc : option exn) : M Sys scalar :=
  run "sync" None ;;;
  ret SNone.

Definition raw_parted (self : t) (string : string) : M Sys CmdResult :=
  x <- run ("/usr/bin/parted -s " +:+ string) None ;;
  ret x.

Definition parted (self : t) (string : string) : M Sys Z :=
  x <- raw_parted self string ;;
  ret (exit_code x).

Definition add_partition (self : t) (type start end_ : string)
    (format : option string) : M Sys bool :=
  match nonempty format with
  | Some format =>
      d <- BlockDevice.device (blockdevice self) ;;
      c <- parted self
             (fmt d +:+ " mkpart " +:+ type +:+ " " +:+ format +:+ " "
              +:+ start +:+ " " +:+ end_) ;;
      ret (Z.eqb c 0)
  | None =>
      d <- BlockDevice.device (blockdevice self) ;;
      c <- parted self
             (fmt d +:+ " mkpart " +:+ type +:+ " " +:+ start +:+ " "
              +:+ end_) ;;
      ret (Z.eqb c 0)
  end.

Definition set_name (self : t) (partition : Z) (name : string)
    : M Sys bool :=
  d <- BlockDevice.device (blockdevice self) ;;
  c <- parted self
         (fmt d +:+ " name " +:+ pretty (partition + 1) +:+ " " +:+ dquote
          +:+ name +:+ dquote) ;;
  ret (Z.eqb c 0).

Definition set (self : t) (partition : Z) (string : string) : M Sys bool :=
  d <- BlockDevice.device (blockdevice self) ;;
  c <- parted self
         (fmt d +:+ " set " +:+ pretty (partition + 1) +:+ " " +:+ string) ;;
  ret (Z.eqb c 0).

Definition use_entire_disk (self : t) (prep_mode : option string)
    : M Sys unit :=
  add_partition self "primary" "1MiB" "513MiB" (Some "fat32") ;;;
  set_name self 0 "EFI" ;;;
  set self 0 "boot on" ;;;
  set self 0 "esp on" ;;;
  if bool_decide (prep_mode = Some "luks2") then
    add_partition self "primary" "513MiB" "100%" None ;;;
    ret tt
  else
    add_partition self "primary" "1MiB" "513MiB" (Some "ext4") ;;;
    ret tt.

(** [with self as fs: body], run by a caller that holds objects [O]. *)
Definition session {O A} (self : t) (body : t -> M (O * Sys) A)
    : M (O * Sys) (option A) :=
  with_stmt (lift (__enter__ self)) (fun exc => lift (__exit__ self exc))
    body.
End Methods.
End Filesystem.

(** ** class luks2 *)

Module luks2.
Record t : Type := mk {
  filesystem : Filesystem.t
}.

Definition __init__ (filesystem : Filesystem.t) : t := mk filesystem.

Section Methods.
Context `{Host}.
Open Scope py_scope.

Definition __enter__ (self : t) : M Sys t := ret self.

Definition __exit__ (self : t) (exc : option exn) : M Sys scalar :=
  match exc with
  | Some e => raise e
  | None => ret (SBool true)
  end.

Definition unlock (self : t) (partition : Partition.t)
    (mountpoint key_file : string) : M Sys (option Partition.t) :=
  (if contains "/" mountpoint then discard (basename mountpoint)
   else ret tt) ;;;
  kf <- os_path_abspath key_file ;;
  run ("/usr/bin/cryptsetup open " +:+ Partition.path partition +:+ " "
       +:+ mountpoint +:+ " --key-file " +:+ kf +:+ " --type luks2") None ;;;
  l <- os_path_islink ("/dev/mapper/" +:+ mountpoint) ;;
  if l then
    ret (Some (Partition.__init__ ("/dev/mapper/" +:+ mountpoint) None
                 (SInt (-1))))
  else ret None.

Definition close (self : t) (mountpoint : string) : M Sys bool :=
  run ("cryptsetup close /dev/mapper/" +:+ mountpoint) None ;;;
  l <- os_path_islink ("/dev/mapper/" +:+ mountpoint) ;;
  ret (negb l).
End Methods.
End luks2.

(** ** A small concrete host

    The world is the list of the links under [/dev/mapper] and the working
    directory is [/root].  Every command prints [out] and exits with
    [code]; [cryptsetup close <link>] removes the link and [cryptsetup open]
    creates the link it is asked for when [opens] is set.  The [mount] call
    returns [mount_ret]. *)

Fixpoint strip_prefix (p s : string) : option string :=
  match p, s with
  | EmptyString, _ => Some s
  | String a p', String b s' => if Ascii.eqb a b then strip_prefix p' s' else None
  | String _ _, EmptyString => None
  end.

(** The text before the first blank. *)
Fixpoint first_word (s : string) : string :=
  match s with
  | EmptyString => EmptyString
  | String c rest => if Ascii.eqb c " " then EmptyString else String c (first_word rest)
  end.

(** The text after the first blank. *)
Fixpoint after_word (s : string) : string :=
  match s with
  | EmptyString => EmptyString
  | String c rest => if Ascii.eqb c " " then rest else after_word rest
  end.

Definition toy_command (opens : bool) (cmd : string) (links : list string)
    : list string :=
  match strip_prefix "cryptsetup close " cmd with
  | Some link => filter (fun l => negb (String.eqb l link)) links
  | None =>
      match strip_prefix "/usr/bin/cryptsetup open " cmd with
      | Some args =>
          if opens then ("/dev/mapper/" +:+ first_word (after_word args)) :: links
          else links
      | None => links
      end
  end.

Definition toy_host (out : string) (code : Z) (opens : bool)
    (tbl : option table) (mount_ret : Z) : Host := {|
  World := list string;
  sys_command := fun cmd _ w => (mkCmdResult out code, toy_command opens cmd w);
  json_loads := fun _ => tbl;
  islink := fun p w => existsb (String.eqb p) w;
  abspath := fun p _ => if String.prefix "/" p then p else "/root/" +:+ p;
  libc_mount := fun _ _ _ _ _ w => (mount_ret, w);
  get_errno := fun _ => 2;
  strerror := fun _ => "No such file or directory"
|}.

(** Hosts whose tools print nothing, print what [mkfs.btrfs] and
    [mkfs.fat] print on success, and on which [cryptsetup open] fails. *)
Definition quiet_host : Host := toy_host "" 0 true None 0.

Definition btrfs_host : Host :=
  toy_host "UUID:               0b8a5c4e-6a0f-4c0e-9a43-2f1d3a0f7c11" 0 true
    None 0.

Definition vfat_host : Host := toy_host "mkfs.fat 4.2 (2021-01-31)" 0 true None 0.

Definition locked_host : Host := toy_host "No key available." 2 false None 0.

(** A host whose loop-device table has the one entry [/dev/loop0]. *)
Definition loop_host : Host :=
  toy_host "" 0 true
    (Some (<["loopdevices" :=
              [ <["name" := SStr "/dev/loop0"]>
                  (<["back-file" := SStr "/srv/disk.img"]> ∅) ]]> ∅))
    0.

(** A toy host with links [links] under [/dev/mapper] and nothing run yet. *)
Definition idle (h : Host) (links : @World h) : @Sys h := @mkSys h links [].

Definition sda : BlockDevice.t :=
  BlockDevice.mk "/dev/sda" (<["type" := SStr "disk"]> ∅).

Definition luksroot : BlockDevice.t :=
  BlockDevice.mk "/dev/mapper/luksroot"
    (<["type" := SStr "crypt"]> (<["pkname" := SStr "sda2"]> ∅)).

Definition untyped : BlockDevice.t :=
  BlockDevice.mk "/dev/sdb" (<["size" := SStr "8G"]> ∅).

Definition loop1 : BlockDevice.t :=
  BlockDevice.mk "/dev/loop1" (<["type" := SStr "loop"]> ∅).

Definition rom : BlockDevice.t :=
  BlockDevice.mk "/dev/sr0" (<["type" := SStr "rom"]> ∅).

Definition sda2 : Partition.t :=
  Partition.__init__ "/dev/sda2" (Some "2") (SStr "100G").

Definition sda_session : Filesystem.t := Filesystem.__init__ sda None.

Definition sda_luks : luks2.t := luks2.__init__ sda_session.

(** A session body that names the first partition and then fails. *)
Definition failing_body `{Host} (fs : Filesystem.t) : M (unit * Sys) unit :=
  (lift (Filesystem.set_name fs 0 "EFI") ;;;
   raise (OSError 5 "Input/output error"))%py.

(** What the query [losetup --json] yields in state [s]: the entries of the
    live loop-device table, when the output decodes to a table. *)
Definition loop_table `{Host} (s : Sys) : option (list (gmap string scalar)) :=
  j ← json_loads (output (fst (exec "losetup --json" (Some true) s)));
  j !! "loopdevices".

(** The entry [drive] of the loop-device table names a device, and it is
    not [p]. *)
Definition names_other (p : string) (drive : gmap string scalar) : Prop :=
  exists name, drive !! "name" = Some name /\ eq_str name p = false.

(** The commands [format] runs on a partition. *)
Definition mkfs_btrfs (self : Partition.t) : string :=
  "/usr/bin/mkfs.btrfs -f " +:+ Partition.path self.

Definition mkfs_vfat (self : Partition.t) : string :=
  "/usr/bin/mkfs.vfat -F32 " +:+ Partition.path self.

(** The test by which [format] takes a FAT32 run for failed. *)
Definition vfat_failed (o : string) : bool :=
  (negb (contains "mkfs.fat" o) && negb (contains "mkfs.vfat" o))
  || contains "command not found" o.

(** The commands of [luks2.unlock] and [luks2.close]. *)
Definition cryptsetup_open (partition : Partition.t)
    (mountpoint key_file : string) : string :=
  "/usr/bin/cryptsetup open " +:+ Partition.path partition +:+ " "
  +:+ mountpoint +:+ " --key-file " +:+ key_file +:+ " --type luks2".

Definition cryptsetup_close (mountpoint : string) : string :=
  "cryptsetup close /dev/mapper/" +:+ mountpoint.

(** The partition [unlock] hands back for a mapping name. *)
Definition mapped (mountpoint : string) : Partition.t :=
  Partition.__init__ ("/dev/mapper/" +:+ mountpoint) None (SInt (-1)).

(** The system after the commands [cmds], run one after the other with
    [hide_from_log] not passed. *)
Fixpoint execs `{Host} (cmds : list string) (s : Sys) : Sys :=
  match cmds with
  | [] => s
  | cmd :: rest => execs rest (snd (exec cmd None s))
  end.

(** The commands of the boot partition of [use_entire_disk] on device [d]. *)
Definition boot_partition_cmds (d : string) : list string :=
  [ "/usr/bin/parted -s " +:+ d +:+ " mkpart primary fat32 1MiB 513MiB";
    "/usr/bin/parted -s " +:+ d +:+ " name 1 " +:+ dquote +:+ "EFI" +:+ dquote;
    "/usr/bin/parted -s " +:+ d +:+ " set 1 boot on";
    "/usr/bin/parted -s " +:+ d +:+ " set 1 esp on" ].

(** The command by which a session writes the GPT label on device [d]. *)
Definition mklabel_cmd (d : string) : string :=
  "/usr/bin/parted -s " +:+ d +:+ " mklabel gpt".

(** The last command of [use_entire_disk] on device [d]. *)
Definition second_partition_cmd (d : string) (prep_mode : option string)
    : string :=
  if bool_decide (prep_mode = Some "luks2")
  then "/usr/bin/parted -s " +:+ d +:+ " mkpart primary 513MiB 100%"
  else "/usr/bin/parted -s " +:+ d +:+ " mkpart primary ext4 1MiB 513MiB".

(** The command of [add_partition] on device [d]. *)
Definition mkpart_cmd (d type start end_ : string) (format : option string)
    : string :=
  "/usr/bin/parted -s " +:+ d +:+ " mkpart " +:+ type +:+ " "
  +:+ match nonempty format with
      | Some f => f +:+ " " +:+ start +:+ " " +:+ end_
      | None => start +:+ " " +:+ end_
      end.

(** [with luks2(fs) as l: body], run by a caller that holds objects [O]. *)
Definition luks2_with `{Host} {O A} (self : luks2.t)
    (body : luks2.t -> M (O * Sys) A) : M (O * Sys) (option A) :=
  with_stmt (lift (luks2.__enter__ self))
    (fun exc => lift (luks2.__exit__ self exc)) body.

(** The filesystem type [mount] settles on: the argument when it is a
    non-empty string, the partition's own otherwise. *)
Definition resolved_fs (self : Partition.t) (fs : option string)
    : option string :=
  match nonempty fs with
  | Some f => Some f
  | None => nonempty (Partition.filesystem self)
  end.

(** ** all_disks *)

(** [a == b] on scalars, as a [dict] compares its keys: booleans are the
    integers 0 and 1. *)
Definition key_eq (a b : scalar) : bool :=
  match a, b with
  | SNone, SNone => true
  | SStr x, SStr y => String.eqb x y
  | SBool x, SBool y => Bool.eqb x y
  | SInt x, SInt y => Z.eqb x y
  | SBool x, SInt y => Z.eqb (if x then 1 else 0) y
  | SInt x, SBool y => Z.eqb x (if y then 1 else 0)
  | _, _ => false
  end.

(** [d[k] = v] on an ordered dict: a key already there keeps its place
    (and the key object) and takes the new value, a new key goes last. *)
Fixpoint od_set {V} (k : scalar) (v : V) (d : list (scalar * V))
    : list (scalar * V) :=
  match d with
  | [] => [(k, v)]
  | (k', v') :: rest =>
      if key_eq k' k then (k', v) :: rest else (k', v') :: od_set k v rest
  end.

Definition lsblk_listing : string :=
  "lsblk --json -l -n -o path,size,type,mountpoint,label,pkname".

(** The loop of [all_disks] over the [blockdevices] array.  The ordered
    dict [drives] maps a path to the info of the [BlockDevice] built for
    it ([BlockDevice(drive['path'], drive)]: the path is the key). *)
Fixpoint all_disks_loop (partitions : scalar)
    (rows : list (gmap string scalar))
    (drives : list (scalar * gmap string scalar))
    : result (list (scalar * gmap string scalar)) :=
  match rows with
  | [] => Ok drives
  | drive :: rest =>
      let keep :=
        match drive !! "path" with
        | None => Raise (KeyError "path")
        | Some p => all_disks_loop partitions rest (od_set p drive drives)
        end in
      if negb (truthy partitions) then
        match drive !! "type" with
        | None => Raise (KeyError "type")
        | Some ty =>
            if eq_str ty "part" then all_disks_loop partitions rest drives
            else keep
        end
      else keep
  end.

(** [all_disks(partitions=...)]; [partitions] is [None] when the keyword
    is not passed.  Other arguments are only handed on to [sys_command]
    and are left out. *)
Definition all_disks `{Host} (partitions : option scalar)
    : M Sys (list (scalar * gmap string scalar)) :=
  (let partitions := default (SBool false) partitions in
   o <- run lsblk_listing (Some true) ;;
   match json_loads (output o) with
   | None => raise ValueError
   | Some j =>
       match j !! "blockdevices" with
       | None => raise (KeyError "blockdevices")
       | Some rows =>
           match all_disks_loop partitions rows [] with
           | Ok drives => ret drives
           | Raise e => raise e
           end
       end
   end)%py.

(** What the query of [all_disks] yields in state [s]. *)
Definition lsblk_rows `{Host} (s : Sys) : option (list (gmap string scalar)) :=
  j ← json_loads (output (fst (exec lsblk_listing (Some true) s)));
  j !! "blockdevices".

(** The row [drive] is listed under key [k]: its path is [k]. *)
Definition listed (drive : gmap string scalar) (k : scalar) : Prop :=
  exists p, drive !! "path" = Some p /\ key_eq k p = true.

(** The keys of an ordered dict are pairwise different. *)
Definition keys_distinct (drives : list (scalar * gmap string scalar))
    : Prop :=
  ForallOrdPairs (fun a b => key_eq (fst a) (fst b) = false) drives.

(** What [all_disks] keeps of a row: it is listed under its key and, when
    partitions are filtered out, it has a type other than [part]. *)
Definition kept_entry (partitions : scalar)
    (e : scalar * gmap string scalar) : Prop :=
  listed (snd e) (fst e)
  /\ (truthy partitions = false ->
        exists ty, snd e !! "type" = Some ty /\ eq_str ty "part" = false).

(** ** BlockDevice.partitions, luks2.encrypt and device_state

    These reach further into the host (the nested output of [lsblk -J],
    the key file, sysfs) and can raise [TypeError] and [re.error], which
    the methods above cannot. *)

Inductive pyexn : Type :=
| Std (e : exn)
| TypeError
| ReError.

Inductive outcome (A : Type) : Type :=
| Returns (a : A)
| Raises (e : pyexn).
Arguments Returns {A} a.
Arguments Raises {A} e.

Definition W (S A : Type) : Type := S -> outcome A * S.

Definition wret {S A} (a : A) : W S A := fun s => (Returns a, s).

Definition wraise {S A} (e : pyexn) : W S A := fun s => (Raises e, s).

Definition wbind {S A B} (m : W S A) (k : A -> W S B) : W S B :=
  fun s =>
    match m s with
    | (Returns a, s') => k a s'
    | (Raises e, s') => (Raises e, s')
    end.

(** A computation of the methods above, run here. *)
Definition up {S A} (m : M S A) : W S A :=
  fun s =>
    match m s with
    | (Ok a, s') => (Returns a, s')
    | (Raise e, s') => (Raises (Std e), s')
    end.

Declare Scope pyw_scope.
Delimit Scope pyw_scope with pyw.
Notation "x <- m ;; k" := (wbind m (fun x => k))
  (at level 100, m at next level, right associativity) : pyw_scope.
Notation "m ;;; k" := (wbind m (fun _ => k))
  (at level 100, right associativity) : pyw_scope.

(** An entry of the [blockdevices] array of [lsblk -J]: its scalar fields
    and, when it has the key, its [children], of which the scalar fields
    are kept. *)
Record lsblk_node : Type := mkNode {
  node_fields : gmap string scalar;
  node_children : option (list (gmap string scalar))
}.

Class HostFiles `{Host} : Type := {
  (** [json.loads(o.decode('UTF-8'))] on the output of [lsblk -J]; [None]
      when decoding or parsing raises (a [ValueError]) *)
  lsblk_loads : string -> option (gmap string (list lsblk_node));
  (** [with open(path, 'wb') as fh: fh.write(data)]: the new world, and
      the errno and message of the [OSError] when there is one *)
  open_write : string -> string -> World -> option (Z * string) * World;
  (** [str(o)] of a bytes object [o], as an f-string prints it *)
  bytes_repr : string -> string
}.

(** [s[n:]] of a byte string *)
Fixpoint string_drop (n : nat) (s : string) : string :=
  match n, s with
  | O, _ => s
  | S n', String _ rest => string_drop n' rest
  | S _, EmptyString => EmptyString
  end.

(** A [str] is held as its UTF-8 encoding, so its characters are the
    bytes that are not continuation bytes ([10xxxxxx]), each with the
    continuation bytes after it. *)
Definition is_continuation (c : ascii) : bool :=
  match c with
  | Ascii _ _ _ _ _ _ b6 b7 => b7 && negb b6
  end.

(** [len(s)] of a [str]: its number of characters. *)
Fixpoint str_len (s : string) : nat :=
  match s with
  | EmptyString => O
  | String c rest =>
      if is_continuation c then str_len rest else S (str_len rest)
  end.

(** The rest of a character: the continuation bytes are passed over. *)
Fixpoint skip_continuation (s : string) : string :=
  match s with
  | EmptyString => EmptyString
  | String c rest => if is_continuation c then skip_continuation rest else s
  end.

(** [s[n:]] of a [str]: the first [n] characters are dropped. *)
Fixpoint str_drop (n : nat) (s : string) : string :=
  match n with
  | O => s
  | S n' =>
      match s with
      | EmptyString => EmptyString
      | String _ rest => str_drop n' (skip_continuation rest)
      end
  end.

(** [s] starts at a character, not inside one. *)
Definition char_start (s : string) : bool :=
  match s with
  | EmptyString => true
  | String c _ => negb (is_continuation c)
  end.

(** A password as [encrypt] takes it: bytes, or text that is encoded. *)
Inductive password : Type :=
| PwBytes (b : string)
| PwStr (t : string).

Module BlockDevicePartitions.
Section Methods.
Context `{HostFiles}.
Open Scope pyw_scope.

(** The loop of [partitions] over the children: [n] is
    [len(os.path.basename(self.path))], a number of characters. *)
Fixpoint partitions_loop (root_path : string) (n : nat)
    (children : list (gmap string scalar)) (parts : gmap string Partition.t)
    : outcome (gmap string Partition.t) :=
  match children with
  | [] => Returns parts
  | part :: rest =>
      match part !! "name" with
      | None => Raises (Std (KeyError "name"))
      | Some (SStr name) =>
          let part_id := str_drop n name in
          match part !! "size" with
          | None => Raises (Std (KeyError "size"))
          | Some size =>
              partitions_loop root_path n rest
                (<[part_id :=
                     Partition.__init__ (root_path +:+ part_id) (Some part_id)
                       size]> parts)
          end
      | Some _ => Raises TypeError
      end
  end.

(** [{k: parts[k] for k in sorted(parts)}] *)
Definition sorted_items (parts : gmap string Partition.t)
    : list (string * Partition.t) :=
  omap (fun k => (fun v => (k, v)) <$> parts !! k)
    (merge_sort String.le (map_to_list parts).*1).

Definition partitions (self : BlockDevice.t)
    : W Sys (list (string * Partition.t)) :=
  up (run ("partprobe " +:+ BlockDevice.path self) None) ;;;
  o <- up (run ("/usr/bin/lsblk -J " +:+ BlockDevice.path self) None) ;;
  if contains "not a block device" (output o) then
    wraise (Std (DiskError
      ["Can not read partitions off something that isn't a block device: "
       +:+ BlockDevice.path self]))
  else if negb (String.prefix "{" (output o)) then
    wraise (Std (DiskError
      ["Error getting JSON output from:";
       "/usr/bin/lsblk -J " +:+ BlockDevice.path self]))
  else
    match lsblk_loads (output o) with
    | None => wraise (Std ValueError)
    | Some r =>
        match r !! "blockdevices" with
        | None => wraise (Std (KeyError "blockdevices"))
        | Some [] => wret (sorted_items ∅)
        | Some (dev0 :: _) =>
            match node_children dev0 with
            | None => wret (sorted_items ∅)
            | Some children =>
                match node_fields dev0 !! "name" with
                | None => wraise (Std (KeyError "name"))
                | Some name =>
                    match partitions_loop ("/dev/" +:+ fmt name)
                            (str_len (basename (BlockDevice.path self)))
                            children ∅ with
                    | Returns parts => wret (sorted_items parts)
                    | Raises e => wraise e
                    end
                end
            end
        end
    end.

(** [BlockDevice.partition]: the partitions in the order of their ids. *)
Definition partition (self : BlockDevice.t) : W Sys (list Partition.t) :=
  all_partitions <- partitions self ;;
  wret (all_partitions.*2).
End Methods.
End BlockDevicePartitions.

Module luks2Encrypt.
Section Methods.
Context `{HostFiles}.
Open Scope pyw_scope.

Definition write_key (key_file data : string) : W Sys unit :=
  fun s =>
    match open_write key_file data (world s) with
    | (None, w) => (Returns tt, mkSys w (trace s))
    | (Some (errno, msg), w) =>
        (Raises (Std (OSError errno msg)), mkSys w (trace s))
    end.

(** [encrypt(partition, password, key_size, hash_type, iter_time,
    key_file)]; the defaults of the source are 512, ['sha512'], 10000 and
    [None]. *)
Definition encrypt (self : luks2.t) (partition : Partition.t)
    (password : password) (key_size : Z) (hash_type : string)
    (iter_time : Z) (key_file : option string) : W Sys string :=
  key_file <-
    match nonempty key_file with
    | Some kf => wret kf
    | None =>
        d <- up (BlockDevice.device
                   (Filesystem.blockdevice (luks2.filesystem self))) ;;
        match d with
        | SStr d => wret ("/tmp/" +:+ basename d +:+ ".disk_pw")
        | _ => wraise TypeError
        end
    end ;;
  let password :=
    match password with
    | PwBytes b => b
    | PwStr t => t
    end in
  write_key key_file password ;;;
  kf <- up (os_path_abspath key_file) ;;
  o <- up (run ("/usr/bin/cryptsetup -q -v --type luks2 --pbkdf argon2i --hash "
                +:+ hash_type +:+ " --key-size " +:+ pretty key_size
                +:+ " --iter-time " +:+ pretty iter_time +:+ " --key-file "
                +:+ kf +:+ " --use-urandom luksFormat "
                +:+ Partition.path partition) None) ;;
  if negb (contains "Command successful." (output o)) then
    wraise (Std (DiskError
      ["Could not encrypt volume " +:+ dquote +:+ Partition.path partition
       +:+ dquote +:+ ": " +:+ bytes_repr (output o)]))
  else wret key_file.
End Methods.
End luks2Encrypt.

(** The files of the toy host: [lsblk -J] decodes to [doc], and a key
    file can be written anywhere but under [/proc]. *)
Definition toy_files (h : Host)
    (doc : option (gmap string (list lsblk_node))) : @HostFiles h := {|
  lsblk_loads := fun _ => doc;
  open_write := fun path _ w =>
    (if String.prefix "/proc/" path then Some (13, "Permission denied")
     else None, w);
  bytes_repr := fun o => "b'" +:+ o +:+ "'"
|}.

(** The commands of [partitions] and of [encrypt]. *)
Definition partprobe_cmd (self : BlockDevice.t) : string :=
  "partprobe " +:+ BlockDevice.path self.

Definition lsblk_cmd (self : BlockDevice.t) : string :=
  "/usr/bin/lsblk -J " +:+ BlockDevice.path self.

Definition luksFormat_cmd (partition : Partition.t) (key_size : Z)
    (hash_type : string) (iter_time : Z) (key_file : string) : string :=
  "/usr/bin/cryptsetup -q -v --type luks2 --pbkdf argon2i --hash "
  +:+ hash_type +:+ " --key-size " +:+ pretty key_size
  +:+ " --iter-time " +:+ pretty iter_time +:+ " --key-file "
  +:+ key_file +:+ " --use-urandom luksFormat " +:+ Partition.path partition.

(** The output of the [lsblk -J] query of [partitions] in state [s] (after
    [partprobe]) and the state it leaves. *)
Definition lsblk_result `{Host} (self : BlockDevice.t) (s : Sys)
    : CmdResult * Sys :=
  exec (lsblk_cmd self) None (snd (exec (partprobe_cmd self) None s)).

(** The entry [k], [p] of [partitions] comes from one of the children
    [cs] of the device named [root]: the id is the child's name without
    its first [n] characters, and the partition is a new one at [root]
    plus the
    id, with the child's size. *)
Definition from_child (root : string) (n : nat)
    (cs : list (gmap string scalar)) (k : string) (p : Partition.t) : Prop :=
  exists part name size,
    In part cs
    /\ part !! "name" = Some (SStr name)
    /\ part !! "size" = Some size
    /\ k = str_drop n name
    /\ p = Partition.__init__ (root +:+ k) (Some k) size.

(** The bytes [encrypt] writes for a password. *)
Definition password_bytes (pw : password) : string :=
  match pw with
  | PwBytes b => b
  | PwStr t => t
  end.

(** ** device_state *)

(** The reads of sysfs; none of them changes the system.  A read that
    raises [OSError] gives its errno and message on the left. *)
Class HostSysfs `{Host} : Type := {
  (** [os.path.isfile] *)
  isfile : string -> World -> bool;
  (** [open(path).read(1)] *)
  read1 : string -> World -> (Z * string) + string;
  (** [os.readlink] *)
  readlink : string -> World -> (Z * string) + string;
  (** [os.path.exists] *)
  path_exists : string -> World -> bool;
  (** [os.listdir] *)
  listdir : string -> World -> (Z * string) + list string;
  (** [re.search(pattern, string)] as a truth value; [None] when the
      pattern does not compile ([re.error]) *)
  re_search : string -> string -> option bool
}.

(** The match of [ROOT_DIR_PATTERN], ['^.*?/devices'], at the start of
    [s]: what follows the first [/devices], when no newline comes before
    it ([.] does not match a newline). *)
Fixpoint root_dir_match (s : string) : option string :=
  if String.prefix "/devices" s then Some (string_drop 8 s)
  else
    match s with
    | EmptyString => None
    | String c rest =>
        if Ascii.eqb c (ascii_of_nat 10) then None else root_dir_match rest
    end.

(** [ROOT_DIR_PATTERN.sub('', s)] *)
Definition root_dir_sub (s : string) : string :=
  match root_dir_match s with
  | Some rest => rest
  | None => s
  end.

Definition hotplug_buses : list string :=
  ["usb"; "ieee1394"; "mmc"; "pcmcia"; "firewire"].

Definition removable_flag (name : string) : string :=
  "/sys/block/" +:+ name +:+ "/device/block/" +:+ name +:+ "/removable".

Definition os_error {A} (e : Z * string) : outcome A :=
  Raises (Std (OSError (fst e) (snd e))).

Section DeviceState.
Context `{HostSysfs}.

(** The inner loop, over the devices of one bus: [true] when the function
    returns from inside it. *)
Fixpoint scan_bus (w : World) (bus path : string) (devices : list string)
    : outcome bool :=
  match devices with
  | [] => Returns false
  | device_bus :: rest =>
      match readlink ("/sys/bus/" +:+ bus +:+ "/devices/" +:+ device_bus) w with
      | inl e => os_error e
      | inr link =>
          match re_search (root_dir_sub link) path with
          | None => Raises ReError
          | Some true => Returns true
          | Some false => scan_bus w bus path rest
          end
      end
  end.

(** The outer loop, over the buses. *)
Fixpoint scan_buses (w : World) (path : string) (buses : list string)
    : outcome bool :=
  match buses with
  | [] => Returns false
  | bus :: rest =>
      if path_exists ("/sys/bus/" +:+ bus) w then
        match listdir ("/sys/bus/" +:+ bus +:+ "/devices") w with
        | inl e => os_error e
        | inr devices =>
            match scan_bus w bus path devices with
            | Returns true => Returns true
            | Returns false => scan_buses w path rest
            | Raises e => Raises e
            end
        end
      else scan_buses w path rest
  end.

(** Whether the first part of [device_state] returns: the flag file is
    there and reads ['1']. *)
Definition flagged_removable (w : World) (name : string) : outcome bool :=
  if isfile (removable_flag name) w then
    match read1 (removable_flag name) w with
    | inl e => os_error e
    | inr c => Returns (String.eqb c "1")
    end
  else Returns false.

(** [device_state(name)]: [None] or [True]. *)
Definition device_state (name : string) : W Sys scalar :=
  fun s =>
    let w := world s in
    match flagged_removable w name with
    | Raises e => (Raises e, s)
    | Returns true => (Returns SNone, s)
    | Returns false =>
        match readlink ("/sys/block/" +:+ name) w with
        | inl e => (os_error e, s)
        | inr link =>
            match scan_buses w (root_dir_sub link) hotplug_buses with
            | Raises e => (Raises e, s)
            | Returns true => (Returns SNone, s)
            | Returns false => (Returns (SBool true), s)
            end
        end
    end.
End DeviceState.

(** A device of bus [bus] whose link, cut like the path, is found in
    [path]. *)
Definition on_bus `{HostSysfs} (w : World) (path bus : string) : Prop :=
  path_exists ("/sys/bus/" +:+ bus) w = true
  /\ exists devices device_bus link,
       listdir ("/sys/bus/" +:+ bus +:+ "/devices") w = inr devices
       /\ In device_bus devices
       /\ readlink ("/sys/bus/" +:+ bus +:+ "/devices/" +:+ device_bus) w
          = inr link
       /\ re_search (root_dir_sub link) path = Some true.

(** A sysfs for the toy host: the block devices [sda] (on the PCI bus) and
    [sdb] (a USB stick, flagged removable when [flag] is set), one USB
    bus with the stick on it.  [re.search] is substring search, which it
    is for these links. *)
Definition toy_sysfs (h : Host) (flag : bool) : @HostSysfs h := {|
  isfile := fun p _ =>
    flag && String.eqb p "/sys/block/sdb/device/block/sdb/removable";
  read1 := fun _ _ => inr "1";
  readlink := fun p _ =>
    if String.eqb p "/sys/block/sda"
    then inr "../devices/pci0000:00/0000:00:1f.2/ata1/host0/block/sda"
    else if String.eqb p "/sys/block/sdb"
    then inr "../devices/pci0000:00/0000:00:14.0/usb1/1-2/host6/block/sdb"
    else if String.eqb p "/sys/bus/usb/devices/1-2"
    then inr "../../../devices/pci0000:00/0000:00:14.0/usb1/1-2"
    else inl (2, "No such file or directory");
  path_exists := fun p _ => String.eqb p "/sys/bus/usb";
  listdir := fun p _ =>
    if String.eqb p "/sys/bus/usb/devices" then inr ["1-2"]
    else inl (2, "No such file or directory");
  re_search := fun pat str => Some (contains pat str)
|}.

(** ** More concrete hosts and objects *)

(** A host whose commands fail, and one whose [cryptsetup] succeeds. *)
Definition failing_host : Host := toy_host "Error: device busy" 1 true None 0.

Definition luks_host : Host := toy_host "Command successful." 0 true None 0.

(** A host on which the kernel refuses to mount. *)
Definition nomount_host : Host := toy_host "" 0 true None (-1).

(** A session on [sda] in a mode that is not GPT, and one on a device
    without a type. *)
Definition mbr_session : Filesystem.t := Filesystem.mk sda 2.

Definition untyped_session : Filesystem.t := Filesystem.__init__ untyped None.

Definition loop0 : BlockDevice.t :=
  BlockDevice.mk "/dev/loop0" (<["type" := SStr "loop"]> ∅).

(** The listing of a disk with one partition, and of a second disk. *)
Definition row (path type : string) : gmap string scalar :=
  <["path" := SStr path]> (<["type" := SStr type]> ∅).

Definition listing_host : Host :=
  toy_host "" 0 true
    (Some (<["blockdevices" :=
              [row "/dev/sda" "disk"; row "/dev/sda1" "part";
               row "/dev/sdb" "disk"]]> ∅))
    0.

(** The tree [lsblk -J /dev/sda] of a disk with three partitions. *)
Definition child (name size : string) : gmap string scalar :=
  <["name" := SStr name]> (<["size" := SStr size]> ∅).

Definition sda_children : list (gmap string scalar) :=
  [child "sda2" "99G"; child "sda10" "1G"; child "sda1" "512M"].

Definition sda_tree : gmap string (list lsblk_node) :=
  <["blockdevices" :=
      [mkNode (<["name" := SStr "sda"]> ∅) (Some sda_children)]]> ∅.

Definition empty_tree : gmap string (list lsblk_node) :=
  <["blockdevices" := []]> ∅.

Definition json_host : Host := toy_host "{" 0 true None 0.

Definition notblk_host : Host :=
  toy_host "lsblk: /dev/null: not a block device" 32 true None 0.

(** A disk reached by a label of four characters and five bytes ([cafe]
    with an acute accent on the last letter), and its listing. *)
Definition e_acute : string :=
  String (ascii_of_nat 195) (String (ascii_of_nat 169) EmptyString).

Definition by_label : BlockDevice.t :=
  BlockDevice.mk ("/dev/disk/by-label/caf" +:+ e_acute)
    (<["type" := SStr "disk"]> ∅).

Definition sdb_children : list (gmap string scalar) := [child "sdb12" "8G"].

Definition sdb_tree : gmap string (list lsblk_node) :=
  <["blockdevices" :=
      [mkNode (<["name" := SStr "sdb"]> ∅) (Some sdb_children)]]> ∅.

Definition sdb_partitions : list (string * Partition.t) :=
  [("2", Partition.__init__ "/dev/sdb2" (Some "2") (SStr "8G"))].

(** What [partitions] returns for [sda_tree]. *)
Definition sda_partitions : list (string * Partition.t) :=
  [("1", Partition.__init__ "/dev/sda1" (Some "1") (SStr "512M"));
   ("10", Partition.__init__ "/dev/sda10" (Some "10") (SStr "1G"));
   ("2", Partition.__init__ "/dev/sda2" (Some "2") (SStr "99G"))].

(** The trace of [partitions] on [sda]. *)
Definition probed : list event :=
  [ECmd "partprobe /dev/sda"; ECmd "/usr/bin/lsblk -J /dev/sda"].



(** * Properties *)

(** ** Commands and the trace *)

Section HostFacts.
Context `{Host}.
Implicit Types (s : Sys).

Lemma trace_exec (cmd : string) hide s :
  trace (snd (exec cmd hide s)) = (trace s ++ [ECmd cmd])%list.
Proof.
  unfold exec. destruct (sys_command cmd hide (world s)). reflexivity.
Qed.

Lemma trace_execs (cmds : list string) s :
  trace (execs cmds s) = (trace s ++ map ECmd cmds)%list.
Proof.
  revert s. induction cmds as [|cmd rest IH]; intros s; simpl.
  - now rewrite app_nil_r.
  - rewrite IH, trace_exec, <- app_assoc. reflexivity.
Qed.

Lemma run_exec (cmd : string) hide s :
  run cmd hide s = (Ok (fst (exec cmd hide s)), snd (exec cmd hide s)).
Proof. unfold run. destruct (exec cmd hide s). reflexivity. Qed.
End HostFacts.

(** ** BlockDevice.device *)

Section BlockDeviceFacts.
Context `{Host}.
Implicit Types (self : BlockDevice.t) (s : Sys).

Lemma eq_str_neq (a b : string) : a <> b -> eq_str (SStr a) b = false.
Proof. intros Hab. simpl. now apply String.eqb_neq. Qed.

Lemma find_back_file_no_match (p : string) drives :
  Forall (names_other p) drives ->
  BlockDevice.find_back_file p drives = Ok SNone.
Proof.
  induction 1 as [|drive rest (name & Hname & Hneq) _ IH]; simpl.
  - reflexivity.
  - rewrite Hname, Hneq. exact IH.
Qed.

(** C3.  A device of type [disk] resolves to its own path; a device of
    type [crypt] with parent kernel name [pk] resolves to [/dev/pk]; a
    device whose info has no [type] key raises [DiskError].  None of the
    three touches the system. *)
Theorem device_by_type self s :
  (BlockDevice.info self !! "type" = Some (SStr "disk") ->
     BlockDevice.device self s = (Ok (SStr (BlockDevice.path self)), s))
  /\ (forall pk : string,
        BlockDevice.info self !! "type" = Some (SStr "crypt") ->
        BlockDevice.info self !! "pkname" = Some (SStr pk) ->
        BlockDevice.device self s = (Ok (SStr ("/dev/" +:+ pk)), s))
  /\ (BlockDevice.info self !! "type" = None ->
        exists args,
          BlockDevice.device self s = (Raise (DiskError args), s)).
Proof.
  unfold BlockDevice.device. repeat split.
  - intros ->. reflexivity.
  - intros pk -> ->. reflexivity.
  - intros ->. eexists. reflexivity.
Qed.

(** C10.  A [loop] device whose path is named by no entry of the live
    loop-device table, and a device whose type is a string other than
    [loop], [disk] and [crypt], resolve to [None] without an exception. *)
Theorem device_falls_through self s :
  (forall drives,
      BlockDevice.info self !! "type" = Some (SStr "loop") ->
      loop_table s = Some drives ->
      Forall (names_other (BlockDevice.path self)) drives ->
      BlockDevice.device self s
      = (Ok SNone, snd (exec "losetup --json" (Some true) s)))
  /\ (forall ty : string,
        BlockDevice.info self !! "type" = Some (SStr ty) ->
        ty <> "loop" -> ty <> "disk" -> ty <> "crypt" ->
        BlockDevice.device self s = (Ok SNone, s)).
Proof.
  split.
  - intros drives Hty Htbl Hall.
    unfold BlockDevice.device. rewrite Hty. simpl.
    unfold loop_table in Htbl. unfold bind, run.
    destruct (exec "losetup --json" (Some true) s) as [o s'] eqn:Hexec.
    simpl in *.
    destruct (json_loads (output o)) as [j|]; simpl in Htbl; [|discriminate].
    rewrite Htbl, (find_back_file_no_match _ _ Hall). reflexivity.
  - intros ty Hty Hl Hd Hc.
    unfold BlockDevice.device. rewrite Hty.
    rewrite !eq_str_neq by assumption. reflexivity.
Qed.
End BlockDeviceFacts.

(** ** Partition.format and Partition.mount *)

Section PartitionFacts.
Context `{Host}.
Implicit Types (self : Partition.t) (s : Sys).

Lemma format_btrfs self s :
  Partition.format "btrfs" (self, s)
  = let (o, s') := exec (mkfs_btrfs self) None s in
    if contains "UUID" (output o)
    then (Ok (SBool true), (Partition.set_filesystem (Some "btrfs") self, s'))
    else (Ok (SBool false), (self, s')).
Proof.
  unfold Partition.format, bind, get_self, lift, run, mkfs_btrfs. simpl.
  destruct (exec _ None s) as [o s']. simpl.
  destruct (contains "UUID" (output o)); reflexivity.
Qed.

Lemma format_fat32 self s :
  Partition.format "fat32" (self, s)
  = let (o, s') := exec (mkfs_vfat self) None s in
    if vfat_failed (output o) then (Ok SNone, (self, s'))
    else (Ok (SBool true), (self, s')).
Proof.
  unfold Partition.format, bind, get_self, lift, run, mkfs_vfat, vfat_failed.
  simpl.
  destruct (exec _ None s) as [o s']. simpl.
  destruct (_ || _); reflexivity.
Qed.

Lemma format_other self s (fs : string) :
  fs <> "btrfs" -> fs <> "fat32" ->
  Partition.format fs (self, s)
  = (Raise (DiskError ["Fileformat " +:+ fs +:+ " is not yet implemented."]),
     (self, s)).
Proof.
  intros Hb Hf. unfold Partition.format, bind, get_self. simpl.
  apply String.eqb_neq in Hb, Hf. rewrite Hb, Hf. reflexivity.
Qed.

Lemma mount_without_filesystem self s (target options : string) :
  Partition.filesystem self = None ->
  Partition.mount target None options (self, s)
  = (Raise (DiskError
             ["Need to format (or define) the filesystem before mounting."]),
     (self, s)).
Proof.
  intros Hfs. unfold Partition.mount, bind, get_self. simpl.
  rewrite Hfs. reflexivity.
Qed.

(** C4.  Mounting a partition whose filesystem is unset, without an
    explicit [fs], raises [DiskError]; the partition and the system,
    trace included, are as before, so no mount call was made. *)
Theorem mount_needs_filesystem self s (target options : string) :
  Partition.filesystem self = None ->
  exists args,
    Partition.mount target None options (self, s)
    = (Raise (DiskError args), (self, s)).
Proof.
  intros Hfs. eexists. apply mount_without_filesystem, Hfs.
Qed.

(** C5.  [format] by cases.  [btrfs]: with a [UUID] marker in the output
    it returns [True] and the filesystem attribute of the partition is
    [btrfs] afterwards (its other attributes are as before); without the
    marker it returns [False] and leaves the partition alone, filesystem
    attribute included.  [fat32]: it returns [None] when neither tool name
    is in the output or [command not found] is, and [True] otherwise.  Any
    other kind raises [DiskError]. *)
Theorem format_three_way self s (fs : string) :
  (forall o s',
      exec (mkfs_btrfs self) None s = (o, s') ->
      (contains "UUID" (output o) = true ->
         exists self',
           Partition.format "btrfs" (self, s) = (Ok (SBool true), (self', s'))
           /\ Partition.filesystem self' = Some "btrfs"
           /\ Partition.path self' = Partition.path self
           /\ Partition.part_id self' = Partition.part_id self
           /\ Partition.mountpoint self' = Partition.mountpoint self
           /\ Partition.size self' = Partition.size self)
      /\ (contains "UUID" (output o) = false ->
            Partition.format "btrfs" (self, s)
            = (Ok (SBool false), (self, s'))
            /\ forall self'' st,
                 Partition.format "btrfs" (self, s) = (st, (self'', s')) ->
                 Partition.filesystem self'' = Partition.filesystem self))
  /\ (forall o s',
        exec (mkfs_vfat self) None s = (o, s') ->
        ((contains "mkfs.fat" (output o) = false
          /\ contains "mkfs.vfat" (output o) = false)
         \/ contains "command not found" (output o) = true ->
           Partition.format "fat32" (self, s) = (Ok SNone, (self, s')))
        /\ ((contains "mkfs.fat" (output o) = true
             \/ contains "mkfs.vfat" (output o) = true)
            /\ contains "command not found" (output o) = false ->
              Partition.format "fat32" (self, s)
              = (Ok (SBool true), (self, s'))))
  /\ (fs <> "btrfs" -> fs <> "fat32" ->
        exists args,
          Partition.format fs (self, s)
          = (Raise (DiskError args), (self, s))).
Proof.
  split; [|split].
  - intros o s' Hexec. rewrite format_btrfs, Hexec.
    split; intros ->.
    + exists (Partition.set_filesystem (Some "btrfs") self).
      repeat split; reflexivity.
    + split; [reflexivity|].
      intros self'' st Heq. injection Heq as _ <-. reflexivity.
  - intros o s' Hexec. rewrite format_fat32, Hexec. unfold vfat_failed.
    split.
    + intros [[-> ->]| ->]; simpl; [|rewrite orb_true_r]; reflexivity.
    + intros [Hmark ->]. rewrite orb_false_r.
      destruct Hmark as [-> | ->]; simpl; [|rewrite andb_false_r];
        reflexivity.
  - intros Hb Hf. eexists. apply format_other; assumption.
Qed.

Lemma mount_keeps_filesystem self s (target : string) fs (options : string)
    r self' s' :
  Partition.mount target fs options (self, s) = (r, (self', s')) ->
  Partition.filesystem self' = Partition.filesystem self.
Proof.
  unfold Partition.mount, bind, get_self, lift, mount_syscall,
    ctypes_get_errno, set_self, raise, ret. simpl.
  destruct (nonempty fs) as [f|]; simpl.
  2: destruct (nonempty (Partition.filesystem self)) as [f|]; simpl.
  1, 2: destruct (libc_mount _ _ _ _ _ _) as [code w]; simpl;
    destruct (Z.ltb code 0); simpl.
  all: intros Heq; injection Heq as _ <- _; reflexivity.
Qed.

(** C9.  A [fat32] format that returns [True] on a partition whose
    filesystem is unset leaves it unset, so that mounting the partition
    afterwards without an explicit [fs] raises [DiskError]; a format of any
    kind but [btrfs], whatever its outcome, leaves the filesystem
    attribute as it was, and so does [mount]. *)
Theorem fat32_leaves_filesystem_unset self s :
  (forall self' s',
      Partition.filesystem self = None ->
      Partition.format "fat32" (self, s) = (Ok (SBool true), (self', s')) ->
      Partition.filesystem self' = None
      /\ forall target options : string,
           exists args,
             Partition.mount target None options (self', s')
             = (Raise (DiskError args), (self', s')))
  /\ (forall (fs : string) r self' s',
        fs <> "btrfs" ->
        Partition.format fs (self, s) = (r, (self', s')) ->
        Partition.filesystem self' = Partition.filesystem self)
  /\ (forall (target : string) fs (options : string) r self' s',
        Partition.mount target fs options (self, s) = (r, (self', s')) ->
        Partition.filesystem self' = Partition.filesystem self).
Proof.
  split; [|split].
  - intros self' s' Hnone Hfmt.
    rewrite format_fat32 in Hfmt.
    destruct (exec _ None s) as [o s1].
    destruct (vfat_failed (output o)); [discriminate|].
    injection Hfmt as <- <-.
    split; [exact Hnone|].
    intros target options. eexists.
    apply mount_without_filesystem, Hnone.
  - intros fs r self' s' Hb Hfmt.
    destruct (String.eqb_spec fs "fat32") as [->|Hf].
    + rewrite format_fat32 in Hfmt.
      destruct (exec _ None s) as [o s1].
      destruct (vfat_failed (output o)); injection Hfmt as _ <- _;
        reflexivity.
    + rewrite (format_other _ _ _ Hb Hf) in Hfmt.
      injection Hfmt as _ <- _. reflexivity.
  - intros target fs options r self' s'. apply mount_keeps_filesystem.
Qed.
End PartitionFacts.

(** ** Filesystem: the session bracket and the canned layout *)

Section FilesystemFacts.
Context `{Host}.
Implicit Types (self : Filesystem.t) (s : Sys).

Lemma parted_exec self (string : string) s :
  Filesystem.parted self string s
  = (Ok (exit_code (fst (exec ("/usr/bin/parted -s " +:+ string) None s))),
     snd (exec ("/usr/bin/parted -s " +:+ string) None s)).
Proof.
  unfold Filesystem.parted, Filesystem.raw_parted, bind.
  rewrite run_exec. reflexivity.
Qed.

(** A device of type [disk] resolves to its path in every state. *)
Lemma device_disk (bd : BlockDevice.t) s :
  BlockDevice.info bd !! "type" = Some (SStr "disk") ->
  BlockDevice.device bd s = (Ok (SStr (BlockDevice.path bd)), s).
Proof. intros Hdisk. unfold BlockDevice.device. rewrite Hdisk. reflexivity. Qed.

(** The [parted] calls of a session whose device resolves to [d] without a
    query (a disk, a crypt device with its parent name, an unknown type):
    each is one command on [d]. *)
Section Resolved.
Variable self : Filesystem.t.
Variable d : scalar.
Hypothesis Hdev :
  forall s, BlockDevice.device (Filesystem.blockdevice self) s = (Ok d, s).

Lemma add_partition_resolved (type start end_ : string) format s :
  exists b,
    Filesystem.add_partition self type start end_ format s
    = (Ok b,
       execs
         ["/usr/bin/parted -s " +:+ fmt d +:+ " mkpart " +:+ type +:+ " "
          +:+ match nonempty format with
              | Some f => f +:+ " " +:+ start +:+ " " +:+ end_
              | None => start +:+ " " +:+ end_
              end] s).
Proof.
  unfold Filesystem.add_partition.
  destruct (nonempty format) as [f|]; unfold bind;
    rewrite Hdev, parted_exec; simpl; eexists; reflexivity.
Qed.

Lemma set_name_resolved (partition : Z) (name : string) s :
  exists b,
    Filesystem.set_name self partition name s
    = (Ok b,
       execs
         ["/usr/bin/parted -s " +:+ fmt d +:+ " name "
          +:+ pretty (partition + 1) +:+ " " +:+ dquote +:+ name +:+ dquote] s).
Proof.
  unfold Filesystem.set_name, bind.
  rewrite Hdev, parted_exec. simpl. eexists. reflexivity.
Qed.

Lemma set_resolved (partition : Z) (string : string) s :
  exists b,
    Filesystem.set self partition string s
    = (Ok b,
       execs
         ["/usr/bin/parted -s " +:+ fmt d +:+ " set "
          +:+ pretty (partition + 1) +:+ " " +:+ string] s).
Proof.
  unfold Filesystem.set, bind.
  rewrite Hdev, parted_exec. simpl. eexists. reflexivity.
Qed.
End Resolved.

Ltac parted_step Hdev :=
  match goal with
  | |- context [Filesystem.add_partition ?f ?t ?a ?b ?o ?s] =>
      destruct (add_partition_resolved f _ Hdev t a b o s) as [? ->]
  | |- context [Filesystem.set_name ?f ?i ?n ?s] =>
      destruct (set_name_resolved f _ Hdev i n s) as [? ->]
  | |- context [Filesystem.set ?f ?i ?n ?s] =>
      destruct (set_resolved f _ Hdev i n s) as [? ->]
  end.

(** C2.  What [use_entire_disk] issues, as the code has it, on a device
    that resolves to [d] without a query.  In either mode the four
    commands of the boot partition come first:
    [mkpart primary fat32 1MiB 513MiB], the name [EFI], [boot on] and
    [esp on] on partition 1.  With [prep_mode] ['luks2'] one more [mkpart]
    follows, without a filesystem, from [513MiB] to [100%].  With any other
    [prep_mode] the one further [mkpart] asks for [ext4] from [1MiB] to
    [513MiB]: the bounds of the boot partition over again, not a region
    after it. *)
Theorem use_entire_disk_commands self s (d : scalar) :
  (forall s0,
      BlockDevice.device (Filesystem.blockdevice self) s0 = (Ok d, s0)) ->
  Filesystem.use_entire_disk self (Some "luks2") s
  = (Ok tt,
     execs
       (boot_partition_cmds (fmt d)
        ++ ["/usr/bin/parted -s " +:+ fmt d +:+ " mkpart primary 513MiB 100%"])
       s)
  /\ forall prep_mode : option string,
       prep_mode <> Some "luks2" ->
       Filesystem.use_entire_disk self prep_mode s
       = (Ok tt,
          execs
            (boot_partition_cmds (fmt d)
             ++ ["/usr/bin/parted -s " +:+ fmt d
                 +:+ " mkpart primary ext4 1MiB 513MiB"])
            s).
Proof.
  intros Hdev. split.
  - unfold Filesystem.use_entire_disk, bind.
    do 4 parted_step Hdev.
    rewrite bool_decide_true by reflexivity.
    parted_step Hdev. reflexivity.
  - intros prep_mode Hmode.
    unfold Filesystem.use_entire_disk, bind.
    do 4 parted_step Hdev.
    rewrite bool_decide_false by assumption.
    parted_step Hdev. reflexivity.
Qed.

Lemma exit_syncs self (exc : option exn) s :
  Filesystem.__exit__ self exc s = (Ok SNone, snd (exec "sync" None s)).
Proof. unfold Filesystem.__exit__, bind. rewrite run_exec. reflexivity. Qed.

(** C6.  A session that was entered runs its exit step on both ways out
    of the body: [sync] is the command issued last, after everything the
    body did, and the outcome of the body is the outcome of the whole
    statement, so an exception raised in the body reaches the caller as
    it is. *)
Theorem session_exit_syncs {O A : Type} self
    (body : Filesystem.t -> M (O * Sys) A) (o o2 : O) s s1 s2
    (fs : Filesystem.t) (r : result A) :
  Filesystem.__enter__ self s = (Ok fs, s1) ->
  body fs (o, s1) = (r, (o2, s2)) ->
  exists s3,
    Filesystem.session self body (o, s)
    = (match r with
       | Ok a => Ok (Some a)
       | Raise e => Raise e
       end, (o2, s3))
    /\ s3 = snd (exec "sync" None s2)
    /\ trace s3 = (trace s2 ++ [ECmd "sync"])%list.
Proof.
  intros Henter Hbody.
  exists (snd (exec "sync" None s2)).
  split; [|split; [reflexivity|apply trace_exec]].
  unfold Filesystem.session, with_stmt, lift. simpl.
  rewrite Henter. simpl. rewrite Hbody. simpl.
  destruct r; rewrite exit_syncs; reflexivity.
Qed.
End FilesystemFacts.

(** ** luks2: unlock and close *)

Section Luks2Facts.
Context `{Host}.
Implicit Types (self : luks2.t) (partition : Partition.t) (s : Sys).

(** [unlock] in one equation: the guard on ['/'] has no effect. *)
Lemma unlock_eq self partition (mountpoint key_file : string) s :
  luks2.unlock self partition mountpoint key_file s
  = let s' :=
      snd (exec (cryptsetup_open partition mountpoint
                   (abspath key_file (world s))) None s) in
    (Ok (if islink ("/dev/mapper/" +:+ mountpoint) (world s')
         then Some (mapped mountpoint) else None), s').
Proof.
  unfold luks2.unlock, bind, discard, ret, os_path_abspath, os_path_islink,
    cryptsetup_open, mapped.
  destruct (contains "/" mountpoint); rewrite run_exec;
    destruct (islink _ _); reflexivity.
Qed.

(** C7.  [unlock] runs the unlock command and then looks for the link
    [/dev/mapper/<mountpoint>]: when the link is there it returns a new
    partition whose path is exactly that link, and when it is not it
    returns [None]; it raises in neither case. *)
Theorem unlock_returns_mapped_partition self partition
    (mountpoint key_file : string) s :
  let s' :=
    snd (exec (cryptsetup_open partition mountpoint
                 (abspath key_file (world s))) None s) in
  (islink ("/dev/mapper/" +:+ mountpoint) (world s') = true ->
     exists p,
       luks2.unlock self partition mountpoint key_file s = (Ok (Some p), s')
       /\ Partition.path p = "/dev/mapper/" +:+ mountpoint)
  /\ (islink ("/dev/mapper/" +:+ mountpoint) (world s') = false ->
        luks2.unlock self partition mountpoint key_file s = (Ok None, s')).
Proof.
  intros s'. split; intros Hlink.
  - exists (mapped mountpoint). split; [|reflexivity].
    rewrite unlock_eq. fold s'. simpl. rewrite Hlink. reflexivity.
  - rewrite unlock_eq. fold s'. simpl. rewrite Hlink. reflexivity.
Qed.

(** C8.  [close] runs the teardown command and returns [True] exactly
    when the link [/dev/mapper/<mountpoint>] does not exist afterwards,
    [False] otherwise. *)
Theorem close_true_iff_link_gone self (mountpoint : string) s :
  let s' := snd (exec (cryptsetup_close mountpoint) None s) in
  exists b : bool,
    luks2.close self mountpoint s = (Ok b, s')
    /\ (b = true <-> islink ("/dev/mapper/" +:+ mountpoint) (world s') = false)
    /\ (b = false <-> islink ("/dev/mapper/" +:+ mountpoint) (world s') = true).
Proof.
  intros s'.
  exists (negb (islink ("/dev/mapper/" +:+ mountpoint) (world s'))).
  split.
  - unfold luks2.close, bind, os_path_islink, cryptsetup_close.
    rewrite run_exec. reflexivity.
  - destruct (islink _ _); simpl; intuition congruence.
Qed.

(** C1.  What [unlock] does with a mountpoint that contains ['/'], as the
    code has it: nothing is rejected.  The unlock command is issued with
    the mountpoint as it was given, and the call returns (a partition
    or [None]) without raising. *)
Theorem unlock_keeps_path_separator self partition
    (mountpoint key_file : string) s :
  contains "/" mountpoint = true ->
  exists r s',
    luks2.unlock self partition mountpoint key_file s = (Ok r, s')
    /\ trace s'
       = (trace s
          ++ [ECmd ("/usr/bin/cryptsetup open " +:+ Partition.path partition
                    +:+ " " +:+ mountpoint +:+ " --key-file "
                    +:+ abspath key_file (world s) +:+ " --type luks2")])%list.
Proof.
  intros _. rewrite unlock_eq. simpl.
  eexists _, _. split; [reflexivity|]. apply trace_exec.
Qed.
End Luks2Facts.

(** ** The properties at concrete devices *)

Lemma device_by_type_witness :
  @BlockDevice.device quiet_host sda (idle quiet_host [])
  = (Ok (SStr "/dev/sda"), idle quiet_host [])
  /\ @BlockDevice.device quiet_host luksroot (idle quiet_host [])
     = (Ok (SStr "/dev/sda2"), idle quiet_host [])
  /\ exists args,
       @BlockDevice.device quiet_host untyped (idle quiet_host [])
       = (Raise (DiskError args), idle quiet_host []).
Proof.
  split; [|split].
  - apply (proj1 (@device_by_type quiet_host sda (idle quiet_host []))).
    reflexivity.
  - apply (proj1 (proj2 (@device_by_type quiet_host luksroot
                           (idle quiet_host []))) "sda2"); reflexivity.
  - apply (proj2 (proj2 (@device_by_type quiet_host untyped
                           (idle quiet_host [])))).
    reflexivity.
Defined.

Lemma device_falls_through_witness :
  fst (@BlockDevice.device loop_host loop1 (idle loop_host [])) = Ok SNone
  /\ @BlockDevice.device quiet_host rom (idle quiet_host [])
     = (Ok SNone, idle quiet_host []).
Proof.
  split.
  - rewrite (proj1 (@device_falls_through loop_host loop1 (idle loop_host []))
               [ <["name" := SStr "/dev/loop0"]>
                   (<["back-file" := SStr "/srv/disk.img"]> ∅) ]).
    + reflexivity.
    + reflexivity.
    + vm_compute. reflexivity.
    + constructor; [|constructor].
      exists (SStr "/dev/loop0"). split; reflexivity.
  - apply (proj2 (@device_falls_through quiet_host rom (idle quiet_host []))
             "rom"); [reflexivity|discriminate..].
Defined.


Lemma mount_needs_filesystem_witness :
  exists args,
    @Partition.mount quiet_host "/mnt" None "" (sda2, idle quiet_host [])
    = (Raise (DiskError args), (sda2, idle quiet_host [])).
Proof.
  apply (@mount_needs_filesystem quiet_host sda2 (idle quiet_host []) "/mnt" "").
  reflexivity.
Defined.

Lemma format_three_way_witness :
  (exists self',
     @Partition.format btrfs_host "btrfs" (sda2, idle btrfs_host [])
     = (Ok (SBool true),
        (self',
         snd (@exec btrfs_host (mkfs_btrfs sda2) None (idle btrfs_host []))))
     /\ Partition.filesystem self' = Some "btrfs"
     /\ Partition.path self' = "/dev/sda2")
  /\ @Partition.format quiet_host "btrfs" (sda2, idle quiet_host [])
     = (Ok (SBool false),
        (Partition.mk "/dev/sda2" "2" None None (SStr "100G"),
         snd (@exec quiet_host (mkfs_btrfs sda2) None (idle quiet_host []))))
  /\ @Partition.format quiet_host "fat32" (sda2, idle quiet_host [])
     = (Ok SNone,
        (sda2, snd (@exec quiet_host (mkfs_vfat sda2) None (idle quiet_host []))))
  /\ @Partition.format vfat_host "fat32" (sda2, idle vfat_host [])
     = (Ok (SBool true),
        (sda2, snd (@exec vfat_host (mkfs_vfat sda2) None (idle vfat_host []))))
  /\ exists args,
       @Partition.format quiet_host "ext4" (sda2, idle quiet_host [])
       = (Raise (DiskError args), (sda2, idle quiet_host [])).
Proof.
  split; [|split; [|split; [|split]]].
  - destruct (proj1 (proj1 (@format_three_way btrfs_host sda2
                              (idle btrfs_host []) "btrfs")
                       _ _ (surjective_pairing _)) eq_refl)
      as (self' & Heq & Hfs & Hpath & _).
    exists self'. split; [exact Heq|]. split; [exact Hfs|exact Hpath].
  - apply (proj2 (proj1 (@format_three_way quiet_host sda2 (idle quiet_host [])
                           "btrfs") _ _ (surjective_pairing _))).
    reflexivity.
  - apply (proj1 (proj1 (proj2 (@format_three_way quiet_host sda2
                                  (idle quiet_host []) "fat32"))
                    _ _ (surjective_pairing _))).
    left. split; reflexivity.
  - apply (proj2 (proj1 (proj2 (@format_three_way vfat_host sda2
                                  (idle vfat_host []) "fat32"))
                    _ _ (surjective_pairing _))).
    split; [left|]; reflexivity.
  - apply (proj2 (proj2 (@format_three_way quiet_host sda2 (idle quiet_host [])
                           "ext4"))); discriminate.
Defined.

Lemma fat32_leaves_filesystem_unset_witness :
  (Partition.filesystem sda2 = None
   /\ forall target options : string,
        exists args,
          @Partition.mount vfat_host target None options
            (sda2, snd (@exec vfat_host (mkfs_vfat sda2) None (idle vfat_host [])))
          = (Raise (DiskError args),
             (sda2,
              snd (@exec vfat_host (mkfs_vfat sda2) None (idle vfat_host [])))))
  /\ Partition.filesystem sda2 = Partition.filesystem sda2
  /\ Partition.filesystem (Partition.set_mountpoint (Some "/mnt") sda2)
     = Partition.filesystem sda2.
Proof.
  split; [|split].
  - apply (proj1 (@fat32_leaves_filesystem_unset vfat_host sda2
                    (idle vfat_host []))); reflexivity.
  - apply (proj1 (proj2 (@fat32_leaves_filesystem_unset vfat_host sda2
                           (idle vfat_host [])))
             "fat32" (Ok (SBool true)) sda2
             (snd (@exec vfat_host (mkfs_vfat sda2) None (idle vfat_host [])))).
    + discriminate.
    + reflexivity.
  - apply (proj2 (proj2 (@fat32_leaves_filesystem_unset quiet_host sda2
                           (idle quiet_host [])))
             "/mnt" (Some "vfat") "" (Ok tt)
             (Partition.set_mountpoint (Some "/mnt") sda2)
             (@mkSys quiet_host [] [EMount "/dev/sda2" "/mnt" "vfat" 0 ""])).
    reflexivity.
Defined.

Lemma use_entire_disk_commands_witness :
  trace (snd (@Filesystem.use_entire_disk quiet_host sda_session (Some "luks2")
                (idle quiet_host [])))
  = [ECmd "/usr/bin/parted -s /dev/sda mkpart primary fat32 1MiB 513MiB";
     ECmd ("/usr/bin/parted -s /dev/sda name 1 " +:+ dquote +:+ "EFI" +:+ dquote);
     ECmd "/usr/bin/parted -s /dev/sda set 1 boot on";
     ECmd "/usr/bin/parted -s /dev/sda set 1 esp on";
     ECmd "/usr/bin/parted -s /dev/sda mkpart primary 513MiB 100%"]
  /\ trace (snd (@Filesystem.use_entire_disk quiet_host sda_session None
                   (idle quiet_host [])))
     = [ECmd "/usr/bin/parted -s /dev/sda mkpart primary fat32 1MiB 513MiB";
        ECmd ("/usr/bin/parted -s /dev/sda name 1 " +:+ dquote +:+ "EFI"
              +:+ dquote);
        ECmd "/usr/bin/parted -s /dev/sda set 1 boot on";
        ECmd "/usr/bin/parted -s /dev/sda set 1 esp on";
        ECmd "/usr/bin/parted -s /dev/sda mkpart primary ext4 1MiB 513MiB"].
Proof.
  split.
  - rewrite (proj1 (@use_entire_disk_commands quiet_host sda_session
                      (idle quiet_host []) (SStr "/dev/sda")
                      (fun s0 => eq_refl))).
    reflexivity.
  - rewrite (proj2 (@use_entire_disk_commands quiet_host sda_session
                      (idle quiet_host []) (SStr "/dev/sda")
                      (fun s0 => eq_refl)) None) by discriminate.
    reflexivity.
Defined.

Lemma session_exit_syncs_witness :
  exists s3,
    @Filesystem.session quiet_host unit unit sda_session failing_body
      (tt, idle quiet_host [])
    = (Raise (OSError 5 "Input/output error"), (tt, s3))
    /\ trace s3
       = [ECmd "/usr/bin/parted -s /dev/sda mklabel gpt";
          ECmd ("/usr/bin/parted -s /dev/sda name 1 " +:+ dquote +:+ "EFI"
                +:+ dquote);
          ECmd "sync"].
Proof.
  edestruct (@session_exit_syncs quiet_host unit unit sda_session failing_body
               tt tt (idle quiet_host []))
    as (s3 & Heq & Hs3 & Htrace).
  - reflexivity.
  - reflexivity.
  - exists s3. split; [exact Heq|]. rewrite Htrace. reflexivity.
Defined.

Lemma unlock_returns_mapped_partition_witness :
  (exists p,
     fst (@luks2.unlock quiet_host sda_luks sda2 "luksroot" "/tmp/key"
            (idle quiet_host []))
     = Ok (Some p)
     /\ Partition.path p = "/dev/mapper/luksroot")
  /\ fst (@luks2.unlock locked_host sda_luks sda2 "luksroot" "/tmp/key"
            (idle locked_host []))
     = Ok None.
Proof.
  split.
  - destruct (proj1 (@unlock_returns_mapped_partition quiet_host sda_luks sda2
                       "luksroot" "/tmp/key" (idle quiet_host [])) eq_refl)
      as (p & Heq & Hpath).
    exists p. split; [rewrite Heq; reflexivity|exact Hpath].
  - rewrite (proj2 (@unlock_returns_mapped_partition locked_host sda_luks sda2
                      "luksroot" "/tmp/key" (idle locked_host [])) eq_refl).
    reflexivity.
Defined.

Lemma unlock_keeps_path_separator_witness :
  exists r s',
    @luks2.unlock quiet_host sda_luks sda2 "a/b" "/tmp/key" (idle quiet_host [])
    = (Ok r, s')
    /\ trace s'
       = [ECmd "/usr/bin/cryptsetup open /dev/sda2 a/b --key-file /tmp/key --type luks2"].
Proof.
  exact (@unlock_keeps_path_separator quiet_host sda_luks sda2 "a/b" "/tmp/key"
           (idle quiet_host []) eq_refl).
Defined.

(** On a host where the unlock tool creates the link it is asked for, the
    name [a/b] yields a partition at [/dev/mapper/a/b]. *)
Example unlock_nested_name :
  @luks2.unlock quiet_host sda_luks sda2 "a/b" "/tmp/key" (idle quiet_host [])
  = (Ok (Some (Partition.mk "/dev/mapper/a/b" "b" None None (SInt (-1)))),
     @mkSys quiet_host ["/dev/mapper/a/b"]
       [ECmd "/usr/bin/cryptsetup open /dev/sda2 a/b --key-file /tmp/key --type luks2"]).
Proof. reflexivity. Qed.


(** * Further properties of the module *)

(** ** The session: entry, label and layout *)

Section SessionFacts.
Context `{Host}.
Implicit Types (self : Filesystem.t) (s : Sys).

Ltac resolved_step Hdev :=
  match goal with
  | |- context [Filesystem.add_partition ?f ?t ?a ?b ?o ?s] =>
      destruct (add_partition_resolved f _ Hdev t a b o s) as [? ->]
  | |- context [Filesystem.set_name ?f ?i ?n ?s] =>
      destruct (set_name_resolved f _ Hdev i n s) as [? ->]
  | |- context [Filesystem.set ?f ?i ?n ?s] =>
      destruct (set_resolved f _ Hdev i n s) as [? ->]
  end.

Lemma use_entire_disk_resolved self s (d : scalar) prep_mode :
  (forall s0,
      BlockDevice.device (Filesystem.blockdevice self) s0 = (Ok d, s0)) ->
  Filesystem.use_entire_disk self prep_mode s
  = (Ok tt,
     execs (boot_partition_cmds (fmt d)
            ++ [second_partition_cmd (fmt d) prep_mode]) s).
Proof.
  intros Hdev. unfold Filesystem.use_entire_disk, bind, second_partition_cmd.
  do 4 resolved_step Hdev.
  destruct (bool_decide (prep_mode = Some "luks2"));
    resolved_step Hdev; reflexivity.
Qed.

Lemma execs_app (l1 l2 : list string) s :
  execs (l1 ++ l2) s = execs l2 (execs l1 s).
Proof.
  revert s. induction l1 as [|c l1 IH]; intros s; simpl; [reflexivity|].
  apply IH.
Qed.

Lemma enter_resolved self s (d : scalar) :
  (forall s0,
      BlockDevice.device (Filesystem.blockdevice self) s0 = (Ok d, s0)) ->
  Filesystem.mode self = GPT ->
  Filesystem.__enter__ self s
  = if Z.eqb (exit_code (fst (exec (mklabel_cmd (fmt d)) None s))) 0
    then (Ok self, snd (exec (mklabel_cmd (fmt d)) None s))
    else (Raise (DiskError ["Problem setting the partition format to GPT:";
                            mklabel_cmd (fmt d)]),
          snd (exec (mklabel_cmd (fmt d)) None s)).
Proof.
  intros Hdev Hmode. unfold Filesystem.__enter__, bind, mklabel_cmd.
  rewrite Hmode. simpl. rewrite Hdev, run_exec.
  destruct (Z.eqb _ 0); [reflexivity|].
  rewrite Hdev. reflexivity.
Qed.

(** X1.  A session whose mode is not GPT fails at entry with [DiskError]
    and leaves the system as it was: no command is issued, the body does
    not run and no [sync] follows. *)
Theorem session_rejects_other_modes {O A : Type} self
    (body : Filesystem.t -> M (O * Sys) A) (o : O) s :
  Filesystem.mode self <> GPT ->
  exists args,
    Filesystem.__enter__ self s = (Raise (DiskError args), s)
    /\ Filesystem.session self body (o, s) = (Raise (DiskError args), (o, s)).
Proof.
  intros Hmode. apply Z.eqb_neq in Hmode.
  eexists. split.
  - unfold Filesystem.__enter__. rewrite Hmode. reflexivity.
  - unfold Filesystem.session, with_stmt, lift, Filesystem.__enter__. simpl.
    rewrite Hmode. reflexivity.
Qed.

(** X2.  Entry of a GPT session on a device that resolves to [d] issues
    the one command [parted -s d mklabel gpt].  With exit code 0 the
    session object is returned; with any other exit code [DiskError] is
    raised, and then the whole [with] statement stops there: after the
    label command nothing else is issued, neither by the body nor a
    [sync]. *)
Theorem enter_writes_label {O A : Type} self
    (body : Filesystem.t -> M (O * Sys) A) (o : O) s (d : scalar) :
  (forall s0,
      BlockDevice.device (Filesystem.blockdevice self) s0 = (Ok d, s0)) ->
  Filesystem.mode self = GPT ->
  let x := fst (exec (mklabel_cmd (fmt d)) None s) in
  let s1 := snd (exec (mklabel_cmd (fmt d)) None s) in
  trace s1 = (trace s ++ [ECmd (mklabel_cmd (fmt d))])%list
  /\ (exit_code x = 0 -> Filesystem.__enter__ self s = (Ok self, s1))
  /\ (exit_code x <> 0 ->
        exists args,
          Filesystem.__enter__ self s = (Raise (DiskError args), s1)
          /\ Filesystem.session self body (o, s)
             = (Raise (DiskError args), (o, s1))).
Proof.
  intros Hdev Hmode x s1. split; [apply trace_exec|]. split.
  - intros Hx. rewrite (enter_resolved _ _ _ Hdev Hmode). fold x.
    rewrite Hx. reflexivity.
  - intros Hx. apply Z.eqb_neq in Hx.
    eexists. split.
    + rewrite (enter_resolved _ _ _ Hdev Hmode). fold x. rewrite Hx.
      reflexivity.
    + unfold Filesystem.session, with_stmt, lift. simpl.
      rewrite (enter_resolved _ _ _ Hdev Hmode). fold x. rewrite Hx.
      reflexivity.
Qed.

(** X3.  The whole of [with Filesystem(dev) as fs: fs.use_entire_disk(m)]
    on a device that resolves to [d], when the label command exits with 0:
    the statement completes without an exception, whatever the later
    commands exit with, and the commands issued are the label, the four of
    the boot partition, the second [mkpart] and [sync], in this order and
    no others. *)
Theorem session_use_entire_disk {O : Type} self (o : O) s (d : scalar)
    (prep_mode : option string) :
  (forall s0,
      BlockDevice.device (Filesystem.blockdevice self) s0 = (Ok d, s0)) ->
  Filesystem.mode self = GPT ->
  exit_code (fst (exec (mklabel_cmd (fmt d)) None s)) = 0 ->
  exists s',
    Filesystem.session self
      (fun fs => lift (Filesystem.use_entire_disk fs prep_mode)) (o, s)
    = (Ok (Some tt), (o, s'))
    /\ trace s'
       = (trace s
          ++ map ECmd
               (mklabel_cmd (fmt d)
                :: boot_partition_cmds (fmt d)
                ++ [second_partition_cmd (fmt d) prep_mode; "sync"]))%list.
Proof.
  intros Hdev Hmode Hx.
  exists (execs (mklabel_cmd (fmt d)
                 :: boot_partition_cmds (fmt d)
                 ++ [second_partition_cmd (fmt d) prep_mode; "sync"]) s).
  split; [|apply trace_execs].
  unfold Filesystem.session, with_stmt, lift. simpl fst. simpl snd.
  rewrite (enter_resolved _ _ _ Hdev Hmode), Hx. simpl Z.eqb. cbv iota beta.
  rewrite (use_entire_disk_resolved _ _ _ _ Hdev), exit_syncs.
  reflexivity.
Qed.
End SessionFacts.

(** ** The parted commands *)

Section PartedFacts.
Context `{Host}.
Implicit Types (self : Filesystem.t) (s : Sys).

Lemma device_untyped (bd : BlockDevice.t) s :
  BlockDevice.info bd !! "type" = None ->
  BlockDevice.device bd s
  = (Raise (DiskError ["Could not locate backplane info for " +:+ dquote
                       +:+ BlockDevice.path bd +:+ dquote]), s).
Proof. intros Hty. unfold BlockDevice.device. rewrite Hty. reflexivity. Qed.

(** X4.  On a device that resolves to [d], [add_partition] issues the one
    command [parted -s d mkpart ...] and returns [True] exactly when it
    exits with 0; an empty [format] counts as no format; [set_name] and
    [set] address the partition by its index plus one and report the exit
    code in the same way. *)
Theorem parted_calls_report_exit_code self s (d : scalar)
    (type start end_ : string) (format : option string) (i : Z)
    (name flag : string) :
  (forall s0,
      BlockDevice.device (Filesystem.blockdevice self) s0 = (Ok d, s0)) ->
  (forall c : string,
      c = mkpart_cmd (fmt d) type start end_ format ->
      exists b : bool,
        Filesystem.add_partition self type start end_ format s
        = (Ok b, snd (exec c None s))
        /\ (b = true <-> exit_code (fst (exec c None s)) = 0))
  /\ Filesystem.add_partition self type start end_ (Some "")
     = Filesystem.add_partition self type start end_ None
  /\ (forall c : string,
        c = "/usr/bin/parted -s " +:+ fmt d +:+ " name " +:+ pretty (i + 1)
            +:+ " " +:+ dquote +:+ name +:+ dquote ->
        exists b : bool,
          Filesystem.set_name self i name s = (Ok b, snd (exec c None s))
          /\ (b = true <-> exit_code (fst (exec c None s)) = 0))
  /\ (forall c : string,
        c = "/usr/bin/parted -s " +:+ fmt d +:+ " set " +:+ pretty (i + 1)
            +:+ " " +:+ flag ->
        exists b : bool,
          Filesystem.set self i flag s = (Ok b, snd (exec c None s))
          /\ (b = true <-> exit_code (fst (exec c None s)) = 0)).
Proof.
  intros Hdev. split; [|split; [|split]].
  - intros c ->.
    exists (Z.eqb (exit_code (fst (exec (mkpart_cmd (fmt d) type start end_
                                           format) None s))) 0).
    split; [|apply Z.eqb_eq].
    unfold Filesystem.add_partition, mkpart_cmd.
    destruct (nonempty format) as [f|]; unfold bind;
      rewrite Hdev, parted_exec; reflexivity.
  - reflexivity.
  - intros c ->. eexists. split.
    + unfold Filesystem.set_name, bind. rewrite Hdev, parted_exec.
      reflexivity.
    + apply Z.eqb_eq.
  - intros c ->. eexists. split.
    + unfold Filesystem.set, bind. rewrite Hdev, parted_exec. reflexivity.
    + apply Z.eqb_eq.
Qed.

(** X5.  On a block device whose info has no [type] key nothing can be
    partitioned: entry of a GPT session, [add_partition], [set_name],
    [set] and [use_entire_disk] all raise [DiskError], and none of them
    issues a command. *)
Theorem untyped_device_blocks_parted self s :
  BlockDevice.info (Filesystem.blockdevice self) !! "type" = None ->
  exists args,
    (Filesystem.mode self = GPT ->
       Filesystem.__enter__ self s = (Raise (DiskError args), s))
    /\ (forall type start end_ format,
          Filesystem.add_partition self type start end_ format s
          = (Raise (DiskError args), s))
    /\ (forall i name,
          Filesystem.set_name self i name s = (Raise (DiskError args), s))
    /\ (forall i flag,
          Filesystem.set self i flag s = (Raise (DiskError args), s))
    /\ (forall prep_mode,
          Filesystem.use_entire_disk self prep_mode s
          = (Raise (DiskError args), s)).
Proof.
  intros Hty. eexists. split; [|split; [|split; [|split]]].
  - intros Hmode. unfold Filesystem.__enter__, bind. rewrite Hmode. simpl.
    rewrite (device_untyped _ _ Hty). reflexivity.
  - intros type start end_ format. unfold Filesystem.add_partition.
    destruct (nonempty format); unfold bind;
      rewrite (device_untyped _ _ Hty); reflexivity.
  - intros i name. unfold Filesystem.set_name, bind.
    rewrite (device_untyped _ _ Hty). reflexivity.
  - intros i flag. unfold Filesystem.set, bind.
    rewrite (device_untyped _ _ Hty). reflexivity.
  - intros prep_mode.
    unfold Filesystem.use_entire_disk, Filesystem.add_partition, bind.
    simpl. rewrite (device_untyped _ _ Hty). reflexivity.
Qed.
End PartedFacts.

(** ** BlockDevice: lookups and the loop-device table *)

Section BlockDeviceMore.
Context `{Host}.
Implicit Types (self : BlockDevice.t) (s : Sys).

Lemma find_back_file_not_DiskError (p : string) drives args :
  BlockDevice.find_back_file p drives <> Raise (DiskError args).
Proof.
  induction drives as [|drive rest IH]; simpl; [discriminate|].
  destruct (drive !! "name") as [name|]; [|discriminate].
  destruct (eq_str name p); [|exact IH].
  destruct (drive !! "back-file"); discriminate.
Qed.

Lemma find_back_file_first_match (p : string)
    (pre post : list (gmap string scalar)) (drive : gmap string scalar)
    name f :
  Forall (names_other p) pre ->
  drive !! "name" = Some name -> eq_str name p = true ->
  drive !! "back-file" = Some f ->
  BlockDevice.find_back_file p (pre ++ drive :: post)%list = Ok f.
Proof.
  intros Hpre Hname Heq Hfile.
  induction Hpre as [|d0 pre (n0 & Hn0 & Hneq) _ IH]; simpl.
  - rewrite Hname, Heq, Hfile. reflexivity.
  - rewrite Hn0, Hneq. exact IH.
Qed.

(** X6.  [device] raises [DiskError] in exactly two situations: the info
    has no [type] key, or the type is [crypt] and there is no [pkname]
    key.  (A loop device may fail with other exceptions, on the output of
    [losetup], but never with [DiskError].) *)
Theorem device_DiskError_iff self s :
  (exists args s', BlockDevice.device self s = (Raise (DiskError args), s'))
  <-> (BlockDevice.info self !! "type" = None
       \/ (BlockDevice.info self !! "type" = Some (SStr "crypt")
           /\ BlockDevice.info self !! "pkname" = None)).
Proof.
  unfold BlockDevice.device. split.
  - intros (args & s' & Hdev).
    destruct (BlockDevice.info self !! "type") as [ty|]; [|left; reflexivity].
    right.
    destruct (eq_str ty "loop") eqn:Hloop.
    + exfalso. unfold bind in Hdev. rewrite run_exec in Hdev.
      destruct (json_loads _) as [j|]; [|discriminate].
      destruct (j !! "loopdevices") as [drives|]; [|discriminate].
      destruct (BlockDevice.find_back_file _ drives) as [v|e] eqn:Hfind;
        [discriminate|].
      injection Hdev as -> _.
      exact (find_back_file_not_DiskError _ _ _ Hfind).
    + destruct (eq_str ty "disk"); [discriminate|].
      destruct (eq_str ty "crypt") eqn:Hcrypt; [|discriminate].
      destruct ty as [| | |t]; try discriminate.
      apply String.eqb_eq in Hcrypt. subst t.
      split; [reflexivity|].
      destruct (BlockDevice.info self !! "pkname"); [discriminate|reflexivity].
  - intros [Hty|[Hty Hpk]]; rewrite Hty.
    + eexists _, _. reflexivity.
    + simpl. rewrite Hpk. eexists _, _. reflexivity.
Qed.

(** X7.  A loop device resolves to the back-file of the first entry of the
    loop-device table that carries its path as name, after the one query
    [losetup --json]; entries after that one are not looked at. *)
Theorem loop_device_back_file self s
    (pre post : list (gmap string scalar)) (drive : gmap string scalar)
    name f :
  BlockDevice.info self !! "type" = Some (SStr "loop") ->
  loop_table s = Some (pre ++ drive :: post)%list ->
  Forall (names_other (BlockDevice.path self)) pre ->
  drive !! "name" = Some name ->
  eq_str name (BlockDevice.path self) = true ->
  drive !! "back-file" = Some f ->
  BlockDevice.device self s
  = (Ok f, snd (exec "losetup --json" (Some true) s)).
Proof.
  intros Hty Htbl Hpre Hname Heq Hfile.
  unfold BlockDevice.device. rewrite Hty. simpl.
  unfold loop_table in Htbl. unfold bind. rewrite run_exec.
  destruct (json_loads _) as [j|]; simpl in Htbl; [|discriminate].
  rewrite Htbl.
  rewrite (find_back_file_first_match _ _ _ _ _ _ Hpre Hname Heq Hfile).
  reflexivity.
Qed.

(** X8.  [bd[key]] returns the value of a key the info has, without
    touching the system.  For a key the info lacks, the error message is
    built from the device, so the device is resolved first: when that
    succeeds [KeyError] is raised with the message, and when the info has
    no [type] key either the lookup raises [DiskError], not [KeyError]. *)
Theorem getitem_cases self s (key : string) :
  (forall v,
      BlockDevice.info self !! key = Some v ->
      BlockDevice.__getitem__ self key s = (Ok v, s))
  /\ (forall d s',
        BlockDevice.info self !! key = None ->
        BlockDevice.device self s = (Ok d, s') ->
        BlockDevice.__getitem__ self key s
        = (Raise (KeyError (("BlockDevice(" +:+ fmt d +:+ ")")
                            +:+ " does not contain information: " +:+ dquote
                            +:+ key +:+ dquote)), s'))
  /\ (BlockDevice.info self !! key = None ->
      BlockDevice.info self !! "type" = None ->
      exists args,
        BlockDevice.__getitem__ self key s = (Raise (DiskError args), s)).
Proof.
  unfold BlockDevice.__getitem__. split; [|split].
  - intros v ->. reflexivity.
  - intros d s' -> Hdev.
    unfold bind, BlockDevice.__repr__, bind. rewrite Hdev. simpl.
    reflexivity.
  - intros -> Hty. eexists.
    unfold bind, BlockDevice.__repr__, bind.
    rewrite (device_untyped _ _ Hty). reflexivity.
Qed.
End BlockDeviceMore.


(** ** Paths and partition ids *)

Section PathFacts.

Lemma contains_slash_cons (c : ascii) (r : string) :
  contains "/" (String c r) = Ascii.eqb c "/" || contains "/" r.
Proof.
  change (contains "/" (String c r))
    with (match ascii_dec "/" c with
          | left _ => String.prefix "" r
          | right _ => false
          end || contains "/" r).
  destruct (ascii_dec "/" c) as [<-|Hne].
  - destruct r; reflexivity.
  - assert (Ascii.eqb c "/" = false) as ->
      by (apply Ascii.eqb_neq; congruence).
    reflexivity.
Qed.

Lemma basename_no_slash (p : string) : contains "/" (basename p) = false.
Proof.
  induction p as [|c r IH]; [reflexivity|].
  cbn [basename].
  destruct (contains "/" r) eqn:Hr; [exact IH|].
  destruct (Ascii.eqb c "/") eqn:Hc; [exact Hr|].
  rewrite contains_slash_cons, Hc, Hr. reflexivity.
Qed.

Lemma basename_id (p : string) : contains "/" p = false -> basename p = p.
Proof.
  destruct p as [|c r]; [reflexivity|].
  rewrite contains_slash_cons. intros [Hc Hr]%orb_false_elim.
  cbn [basename]. rewrite Hr, Hc. reflexivity.
Qed.

Lemma contains_slash_app (p q : string) :
  contains "/" (p +:+ String "/" q) = true.
Proof.
  induction p as [|c r IH].
  - change (contains "/" (String "/" q) = true).
    rewrite contains_slash_cons. reflexivity.
  - change (contains "/" (String c (r +:+ String "/" q)) = true).
    rewrite contains_slash_cons, IH. apply orb_true_r.
Qed.

Lemma basename_app_slash (p q : string) :
  basename (p +:+ String "/" q) = basename q.
Proof.
  induction p as [|c r IH].
  - change (basename (String "/" q) = basename q).
    cbn [basename]. destruct (contains "/" q) eqn:Hq; [reflexivity|].
    simpl. symmetry. apply basename_id, Hq.
  - change (basename (String c (r +:+ String "/" q)) = basename q).
    cbn [basename]. rewrite contains_slash_app. exact IH.
Qed.

Lemma basename_suffix (p : string) : exists pre, p = pre +:+ basename p.
Proof.
  induction p as [|c r [pre IH]].
  - exists "". reflexivity.
  - cbn [basename].
    destruct (contains "/" r).
    + exists (String c pre).
      change (String c r = String c (pre +:+ basename r)).
      f_equal. exact IH.
    + destruct (Ascii.eqb c "/").
      * exists (String c ""). reflexivity.
      * exists "". reflexivity.
Qed.

(** X9.  The id of a new partition: a non-empty [part_id] is kept; without
    one the id is the part of the path after its last ['/'] (so it ends
    the path and holds no ['/']).  A new partition is neither mounted nor
    formatted. *)
Theorem partition_id_derivation (path : string) (part_id : option string)
    (size : scalar) :
  let p := Partition.__init__ path part_id size in
  (forall i, nonempty part_id = Some i -> Partition.part_id p = i)
  /\ (nonempty part_id = None ->
        Partition.part_id p = basename path
        /\ contains "/" (Partition.part_id p) = false
        /\ exists pre, path = pre +:+ Partition.part_id p)
  /\ Partition.path p = path
  /\ Partition.mountpoint p = None
  /\ Partition.filesystem p = None.
Proof.
  unfold Partition.__init__. simpl. split; [|split].
  - intros i ->. reflexivity.
  - intros ->. split; [reflexivity|]. split.
    + apply basename_no_slash.
    + apply basename_suffix.
  - repeat split.
Qed.
End PathFacts.

(** ** Mounting *)

Section MountFacts.
Context `{Host}.
Implicit Types (self : Partition.t) (s : Sys).

Lemma mount_resolved self s (target options f : string) fs :
  resolved_fs self fs = Some f ->
  Partition.mount target fs options (self, s)
  = let rw := libc_mount (Partition.path self) target f 0 options (world s) in
    let s1 :=
      mkSys (snd rw)
        (trace s ++ [EMount (Partition.path self) target f 0 options]) in
    if Z.ltb (fst rw) 0
    then (Raise (OSError (get_errno (snd rw))
                   ("Error mounting " +:+ Partition.path self +:+ " (" +:+ f
                    +:+ ") on " +:+ target +:+ " with options '" +:+ options
                    +:+ "': " +:+ strerror (get_errno (snd rw)))),
          (self, s1))
    else (Ok tt, (Partition.set_mountpoint (Some target) self, s1)).
Proof.
  unfold resolved_fs. intros Hfs.
  unfold Partition.mount, bind, get_self, lift, mount_syscall,
    ctypes_get_errno, set_self, raise, ret. simpl.
  destruct (nonempty fs) as [f0|].
  - injection Hfs as ->. simpl.
    destruct (libc_mount _ _ _ _ _ _) as [r w]. simpl.
    destruct (Z.ltb r 0); reflexivity.
  - rewrite Hfs. simpl.
    destruct (libc_mount _ _ _ _ _ _) as [r w]. simpl.
    destruct (Z.ltb r 0); reflexivity.
Qed.

(** X10.  When a filesystem type [f] is known (the non-empty [fs]
    argument, else the partition's own), [mount] makes exactly one mount
    call, on the partition's path with type [f] and flags 0.  A
    non-negative return records the target as the mountpoint; a negative
    one raises [OSError] with the host's errno and leaves the partition as
    it was. *)
Theorem mount_outcome self s (target options f : string) fs :
  resolved_fs self fs = Some f ->
  let rw := libc_mount (Partition.path self) target f 0 options (world s) in
  exists r self' s',
    Partition.mount target fs options (self, s) = (r, (self', s'))
    /\ world s' = snd rw
    /\ trace s'
       = (trace s ++ [EMount (Partition.path self) target f 0 options])%list
    /\ (0 <= fst rw ->
          r = Ok tt /\ self' = Partition.set_mountpoint (Some target) self)
    /\ (fst rw < 0 ->
          self' = self
          /\ exists msg, r = Raise (OSError (get_errno (snd rw)) msg)).
Proof.
  intros Hfs rw. rewrite (mount_resolved _ _ _ _ _ _ Hfs). fold rw.
  cbv zeta. destruct (Z.ltb_spec (fst rw) 0) as [Hneg|Hpos].
  - eexists _, _, _. split; [reflexivity|].
    split; [reflexivity|]. split; [reflexivity|]. split.
    + intros Hge. exfalso. apply (Z.lt_irrefl 0).
      eapply Z.le_lt_trans; eassumption.
    + intros _. split; [reflexivity|]. eexists. reflexivity.
  - eexists _, _, _. split; [reflexivity|].
    split; [reflexivity|]. split; [reflexivity|]. split.
    + intros _. split; reflexivity.
    + intros Hlt. exfalso. apply (Z.lt_irrefl 0).
      eapply Z.le_lt_trans; eassumption.
Qed.

(** X11.  The [fs] argument of [mount] is used for that call only: on a
    partition whose filesystem is unset, whatever a [mount] with an
    explicit [fs] did, a later [mount] without [fs] still raises
    [DiskError] and makes no mount call. *)
Theorem mount_does_not_learn_fs self s (target : string) fs
    (options : string) r self' s' :
  Partition.filesystem self = None ->
  Partition.mount target fs options (self, s) = (r, (self', s')) ->
  forall target2 options2 : string,
    exists args,
      Partition.mount target2 None options2 (self', s')
      = (Raise (DiskError args), (self', s')).
Proof.
  intros Hnone Hmount target2 options2. eexists.
  apply mount_without_filesystem.
  rewrite (mount_keeps_filesystem _ _ _ _ _ _ _ _ Hmount). exact Hnone.
Qed.

(** X12.  After a [btrfs] format that returned [True], a [mount] without
    [fs] goes through to the kernel: it makes the mount call on the
    partition's path with type [btrfs]. *)
Theorem btrfs_format_then_mount self s self' s' (target options : string) :
  Partition.format "btrfs" (self, s) = (Ok (SBool true), (self', s')) ->
  exists r self'' s'',
    Partition.mount target None options (self', s') = (r, (self'', s''))
    /\ trace s''
       = (trace s'
          ++ [EMount (Partition.path self) target "btrfs" 0 options])%list.
Proof.
  intros Hfmt. rewrite format_btrfs in Hfmt.
  destruct (exec _ None s) as [o s1].
  destruct (contains "UUID" (output o)); [|discriminate].
  injection Hfmt as <- <-.
  rewrite (mount_resolved (Partition.set_filesystem (Some "btrfs") self) s1
             target options "btrfs" None eq_refl).
  cbv zeta. destruct (Z.ltb _ 0); eexists _, _, _; split; reflexivity.
Qed.
End MountFacts.

(** ** luks2: the context manager and the unlocked partition *)

Section Luks2More.
Context `{Host}.
Implicit Types (self : luks2.t) (s : Sys).

(** X13.  [with luks2(fs) as l: body] adds nothing to its body: entry and
    exit issue no command (in particular the mapping is not closed on the
    way out), the state is the one the body left, and an exception of the
    body reaches the caller as it is. *)
Theorem luks2_with_is_transparent {O A : Type} self
    (body : luks2.t -> M (O * Sys) A) (o : O) s (r : result A)
    (st : O * Sys) :
  body self (o, s) = (r, st) ->
  luks2_with self body (o, s)
  = (match r with
     | Ok a => Ok (Some a)
     | Raise e => Raise e
     end, st).
Proof.
  intros Hbody.
  unfold luks2_with, with_stmt, lift, luks2.__enter__, luks2.__exit__, ret,
    raise.
  simpl. rewrite Hbody. destruct r, st; reflexivity.
Qed.

(** X14.  The partition [unlock] returns is a fresh one: its id is the
    part of the mountpoint name after the last ['/'] (the name itself when
    it has none), it has no mountpoint and no filesystem, and so it cannot
    be mounted without an explicit [fs]: that raises [DiskError]. *)
Theorem unlocked_partition_is_fresh self (partition : Partition.t)
    (mountpoint key_file : string) s p s' :
  luks2.unlock self partition mountpoint key_file s = (Ok (Some p), s') ->
  Partition.part_id p = basename mountpoint
  /\ (contains "/" mountpoint = false -> Partition.part_id p = mountpoint)
  /\ Partition.mountpoint p = None
  /\ Partition.filesystem p = None
  /\ forall target options : string,
       exists args,
         Partition.mount target None options (p, s')
         = (Raise (DiskError args), (p, s')).
Proof.
  rewrite unlock_eq. cbv zeta.
  destruct (islink _ _); [|discriminate].
  intros Heq. injection Heq as <- <-.
  assert (Partition.part_id (mapped mountpoint) = basename mountpoint) as Hid.
  { unfold mapped, Partition.__init__. simpl Partition.part_id.
    exact (basename_app_slash "/dev/mapper" mountpoint). }
  split; [exact Hid|]. split.
  - intros Hno. rewrite Hid. apply basename_id, Hno.
  - split; [reflexivity|]. split; [reflexivity|].
    intros target options. eexists.
    apply mount_without_filesystem. reflexivity.
Qed.
End Luks2More.

(** ** all_disks *)

Section AllDisksFacts.
Context `{Host}.
Implicit Types (drives : list (scalar * gmap string scalar)).
Implicit Types (rows : list (gmap string scalar)) (s : Sys).

Lemma key_eq_refl (k : scalar) : key_eq k k = true.
Proof.
  destruct k as [|b|z|t]; simpl.
  - reflexivity.
  - destruct b; reflexivity.
  - apply Z.eqb_refl.
  - apply String.eqb_refl.
Qed.

Lemma od_set_distinct {V} (k : scalar) (v : V) (d : list (scalar * V)) :
  ForallOrdPairs (fun a b => key_eq (fst a) (fst b) = false) d ->
  ForallOrdPairs (fun a b => key_eq (fst a) (fst b) = false) (od_set k v d)
  /\ (Forall (fun a => key_eq (fst a) k = false) d ->
        od_set k v d = (d ++ [(k, v)])%list)
  /\ forall k0, Forall (fun a => key_eq k0 (fst a) = false) d ->
       key_eq k0 k = false ->
       Forall (fun a => key_eq k0 (fst a) = false) (od_set k v d).
Proof.
  induction d as [|[k' v'] rest IH]; intros Hd.
  - split; [|split].
    + repeat constructor.
    + reflexivity.
    + intros k0 _ Hk0. repeat constructor. exact Hk0.
  - inversion Hd as [|x l Hx Hrest]; subst.
    destruct (IH Hrest) as (IH1 & IH2 & IH3).
    cbn [od_set]. destruct (key_eq k' k) eqn:Hk.
    + split; [|split].
      * constructor; [exact Hx|exact Hrest].
      * intros Hall. inversion Hall as [|? ? Hh _]; subst.
        simpl in Hh. congruence.
      * intros k0 Hall _. inversion Hall; subst.
        constructor; assumption.
    + split; [|split].
      * constructor; [|exact IH1]. apply IH3; assumption.
      * intros Hall. inversion Hall; subst.
        simpl. f_equal. apply IH2. assumption.
      * intros k0 Hall Hk0. inversion Hall; subst.
        constructor; [assumption|]. apply IH3; assumption.
Qed.

Lemma od_set_Forall {V} (P : scalar * V -> Prop) (k : scalar) (v : V)
    (d : list (scalar * V)) :
  Forall P d ->
  (forall k', key_eq k' k = true -> P (k', v)) ->
  Forall P (od_set k v d).
Proof.
  intros Hd Hnew. induction Hd as [|[k' v'] rest Hx Hrest IH]; cbn [od_set].
  - constructor; [|constructor]. apply Hnew, key_eq_refl.
  - destruct (key_eq k' k) eqn:Hk.
    + constructor; [apply Hnew, Hk|assumption].
    + constructor; assumption.
Qed.

Lemma od_set_has_key {V} (k : scalar) (v : V) (d : list (scalar * V)) :
  Exists (fun a => key_eq (fst a) k = true) (od_set k v d).
Proof.
  induction d as [|[k' v'] rest IH]; cbn [od_set].
  - constructor. apply key_eq_refl.
  - destruct (key_eq k' k) eqn:Hk.
    + constructor. exact Hk.
    + apply Exists_cons_tl, IH.
Qed.

Lemma od_set_keeps_keys {V} (k k0 : scalar) (v : V) (d : list (scalar * V)) :
  Exists (fun a => key_eq (fst a) k0 = true) d ->
  Exists (fun a => key_eq (fst a) k0 = true) (od_set k v d).
Proof.
  induction d as [|[k' v'] rest IH]; intros Hex; cbn [od_set].
  - inversion Hex.
  - destruct (key_eq k' k) eqn:Hk.
    + inversion Hex as [? ? Hh|? ? Ht]; subst.
      * constructor. exact Hh.
      * apply Exists_cons_tl, Ht.
    + inversion Hex as [? ? Hh|? ? Ht]; subst.
      * constructor. exact Hh.
      * apply Exists_cons_tl, IH, Ht.
Qed.

Lemma all_disks_loop_sound (partitions : scalar) rows drives out :
  all_disks_loop partitions rows drives = Ok out ->
  keys_distinct drives -> Forall (kept_entry partitions) drives ->
  keys_distinct out /\ Forall (kept_entry partitions) out.
Proof.
  revert drives. induction rows as [|drive rest IH]; intros drives Hloop Hd Hk.
  - injection Hloop as <-. split; assumption.
  - cbn [all_disks_loop] in Hloop.
    assert (forall ty,
               (truthy partitions = false ->
                drive !! "type" = Some ty /\ eq_str ty "part" = false) ->
               match drive !! "path" with
               | Some p =>
                   all_disks_loop partitions rest (od_set p drive drives)
               | None => Raise (KeyError "path")
               end = Ok out ->
               keys_distinct out /\ Forall (kept_entry partitions) out)
      as Hkeep.
    { intros ty Hty Hgo.
      destruct (drive !! "path") as [p|] eqn:Hp; [|discriminate].
      apply (IH _ Hgo).
      - apply od_set_distinct, Hd.
      - apply od_set_Forall; [exact Hk|].
        intros k' Hk'. split.
        + exists p. split; [exact Hp|exact Hk'].
        + intros Hf. exists ty. apply Hty, Hf. }
    destruct (truthy partitions) eqn:Htr; simpl in Hloop.
    + apply (Hkeep SNone); [discriminate|exact Hloop].
    + destruct (drive !! "type") as [ty|] eqn:Hty; [|discriminate].
      destruct (eq_str ty "part") eqn:Hpart.
      * apply (IH _ Hloop); assumption.
      * apply (Hkeep ty); [|exact Hloop]. intros _.
        split; [reflexivity|exact Hpart].
Qed.

Lemma all_disks_loop_keeps_keys (partitions : scalar) rows drives out k0 :
  all_disks_loop partitions rows drives = Ok out ->
  Exists (fun a => key_eq (fst a) k0 = true) drives ->
  Exists (fun a => key_eq (fst a) k0 = true) out.
Proof.
  revert drives. induction rows as [|drive rest IH]; intros drives Hloop Hex.
  - injection Hloop as <-. exact Hex.
  - cbn [all_disks_loop] in Hloop.
    destruct (negb (truthy partitions)).
    + destruct (drive !! "type") as [ty|]; [|discriminate].
      destruct (eq_str ty "part"); [apply (IH _ Hloop), Hex|].
      destruct (drive !! "path") as [p|]; [|discriminate].
      apply (IH _ Hloop), od_set_keeps_keys, Hex.
    + destruct (drive !! "path") as [p|]; [|discriminate].
      apply (IH _ Hloop), od_set_keeps_keys, Hex.
Qed.

Lemma all_disks_loop_complete (partitions : scalar) rows drives out :
  all_disks_loop partitions rows drives = Ok out ->
  Forall (fun drive =>
            forall p, drive !! "path" = Some p ->
              (truthy partitions = true
               \/ exists ty, drive !! "type" = Some ty
                             /\ eq_str ty "part" = false) ->
              Exists (fun a => key_eq (fst a) p = true) out) rows.
Proof.
  revert drives. induction rows as [|drive rest IH]; intros drives Hloop.
  - constructor.
  - cbn [all_disks_loop] in Hloop. constructor.
    + intros p Hp Hkept. rewrite Hp in Hloop.
      destruct (truthy partitions) eqn:Htr; simpl in Hloop.
      * apply (all_disks_loop_keeps_keys _ _ _ _ _ Hloop), od_set_has_key.
      * destruct Hkept as [Hf|(ty & Hty & Hpart)]; [discriminate|].
        rewrite Hty, Hpart in Hloop.
        apply (all_disks_loop_keeps_keys _ _ _ _ _ Hloop), od_set_has_key.
    + destruct (negb (truthy partitions)).
      * destruct (drive !! "type") as [ty|]; [|discriminate].
        destruct (eq_str ty "part"); [apply (IH _ Hloop)|].
        destruct (drive !! "path") as [p|]; [|discriminate].
        apply (IH _ Hloop).
      * destruct (drive !! "path") as [p|]; [|discriminate].
        apply (IH _ Hloop).
Qed.

Lemma all_disks_eq (partitions : option scalar) s :
  all_disks partitions s
  = (match json_loads (output (fst (exec lsblk_listing (Some true) s))) with
     | None => Raise ValueError
     | Some j =>
         match j !! "blockdevices" with
         | None => Raise (KeyError "blockdevices")
         | Some rows =>
             all_disks_loop (default (SBool false) partitions) rows []
         end
     end, snd (exec lsblk_listing (Some true) s)).
Proof.
  unfold all_disks, bind. rewrite run_exec.
  destruct (json_loads _) as [j|]; [|reflexivity].
  destruct (j !! "blockdevices") as [rows|]; [|reflexivity].
  destruct (all_disks_loop _ rows []); reflexivity.
Qed.

(** X15.  What [all_disks] returns, after its one [lsblk] query: an
    ordered dict whose keys are pairwise different, where every device is
    filed under the path of its own info, and where, unless partitions
    were asked for, every device has a [type] and it is not [part]. *)
Theorem all_disks_entries (partitions : option scalar) s drives s' :
  all_disks partitions s = (Ok drives, s') ->
  s' = snd (exec lsblk_listing (Some true) s)
  /\ keys_distinct drives
  /\ Forall (fun e => listed (snd e) (fst e)) drives
  /\ (truthy (default (SBool false) partitions) = false ->
        Forall (fun e => exists ty, snd e !! "type" = Some ty
                                    /\ eq_str ty "part" = false) drives).
Proof.
  rewrite all_disks_eq. intros Heq. injection Heq as Hres <-.
  split; [reflexivity|].
  destruct (json_loads _) as [j|]; [|discriminate].
  destruct (j !! "blockdevices") as [rows|]; [|discriminate].
  destruct (all_disks_loop_sound _ _ _ _ Hres) as [Hd Hk].
  { constructor. }
  { constructor. }
  split; [exact Hd|]. split.
  - eapply List.Forall_impl; [|exact Hk]. intros e [Hl _]. exact Hl.
  - intros Hf. eapply List.Forall_impl; [|exact Hk]. intros e [_ Hty].
    apply Hty, Hf.
Qed.

(** X16.  [all_disks] loses no device: when it returns, every row of the
    listing that has a path, and that is not a partition filtered out, has
    its path among the keys of the result. *)
Theorem all_disks_complete (partitions : option scalar) s drives s' rows :
  all_disks partitions s = (Ok drives, s') ->
  lsblk_rows s = Some rows ->
  forall drive p,
    In drive rows -> drive !! "path" = Some p ->
    (truthy (default (SBool false) partitions) = true
     \/ exists ty, drive !! "type" = Some ty /\ eq_str ty "part" = false) ->
    exists k info, In (k, info) drives /\ key_eq k p = true.
Proof.
  rewrite all_disks_eq. unfold lsblk_rows.
  intros Heq Hrows drive p Hin Hp Hkept. injection Heq as Hres _.
  destruct (json_loads _) as [j|]; simpl in Hrows; [|discriminate].
  rewrite Hrows in Hres.
  pose proof (all_disks_loop_complete _ _ _ _ Hres) as Hall.
  rewrite List.Forall_forall in Hall.
  specialize (Hall drive Hin p Hp Hkept).
  apply List.Exists_exists in Hall as ([k info] & Hin' & Hk).
  exists k, info. split; assumption.
Qed.
End AllDisksFacts.


(** ** BlockDevice.partitions *)

Section PartitionsFacts.
Context `{HostFiles}.
Implicit Types (self : BlockDevice.t) (s : Sys).
Implicit Types (parts : gmap string Partition.t).

Lemma skip_continuation_start (s : string) :
  char_start s = true -> skip_continuation s = s.
Proof.
  destruct s as [|c r]; [reflexivity|]. simpl.
  destruct (is_continuation c); [discriminate|reflexivity].
Qed.

Lemma str_drop_skip_app (a b : string) :
  char_start b = true ->
  str_drop (str_len a) (skip_continuation (a +:+ b)) = b.
Proof.
  intros Hb. induction a as [|c a IH].
  - change (str_drop 0 (skip_continuation b) = b).
    simpl. apply skip_continuation_start, Hb.
  - change (str_drop (str_len (String c a))
              (skip_continuation (String c (a +:+ b))) = b).
    cbn [str_len skip_continuation].
    destruct (is_continuation c); [exact IH|].
    cbn [str_drop]. exact IH.
Qed.

(** Cutting a name after the characters of its first part. *)
Lemma str_drop_app (a b : string) :
  char_start a = true -> char_start b = true ->
  str_drop (str_len a) (a +:+ b) = b.
Proof.
  intros Ha Hb. rewrite <- (str_drop_skip_app a b Hb) at 2.
  f_equal. symmetry. apply skip_continuation_start.
  destruct a as [|c r]; [exact Hb|exact Ha].
Qed.

Lemma sorted_keys_elem parts (k : string) :
  k ∈ merge_sort String.le (map_to_list parts).*1 <-> is_Some (parts !! k).
Proof.
  rewrite merge_sort_Permutation, list_elem_of_fmap. split.
  - intros ([k' p] & -> & Hin). apply elem_of_map_to_list in Hin.
    exists p. exact Hin.
  - intros [p Hp]. exists (k, p). split; [reflexivity|].
    apply elem_of_map_to_list, Hp.
Qed.

Lemma sorted_items_elem parts (k : string) (p : Partition.t) :
  (k, p) ∈ BlockDevicePartitions.sorted_items parts <-> parts !! k = Some p.
Proof.
  unfold BlockDevicePartitions.sorted_items. rewrite list_elem_of_omap. split.
  - intros (k' & _ & Hk'). destruct (parts !! k') as [p'|] eqn:Hp';
      simpl in Hk'; [|discriminate].
    injection Hk' as -> ->. exact Hp'.
  - intros Hp. exists k. split.
    + apply sorted_keys_elem. exists p. exact Hp.
    + rewrite Hp. reflexivity.
Qed.

Lemma omap_lookup_keys parts (l : list string) :
  (forall k, k ∈ l -> is_Some (parts !! k)) ->
  (omap (fun k => (fun v => (k, v)) <$> parts !! k) l).*1 = l.
Proof.
  induction l as [|k l IH]; intros Hl; [reflexivity|].
  destruct (Hl k) as [p Hp]; [left|].
  cbn [omap list_omap]. rewrite Hp. simpl. f_equal.
  apply IH. intros k' Hk'. apply Hl. right. exact Hk'.
Qed.

Lemma sorted_items_keys parts :
  (BlockDevicePartitions.sorted_items parts).*1
  = merge_sort String.le (map_to_list parts).*1.
Proof.
  apply omap_lookup_keys. intros k Hk. apply sorted_keys_elem, Hk.
Qed.

Lemma sorted_items_sorted parts :
  StronglySorted String.le (BlockDevicePartitions.sorted_items parts).*1
  /\ NoDup (BlockDevicePartitions.sorted_items parts).*1.
Proof.
  rewrite sorted_items_keys. split.
  - apply StronglySorted_merge_sort; apply _.
  - rewrite merge_sort_Permutation. apply NoDup_fst_map_to_list.
Qed.

(** The ways [partitions] comes to return: its result is the sorted view
    of a dict [parts], empty or filled by the loop. *)
Lemma partitions_returns self s result s' :
  BlockDevicePartitions.partitions self s = (Returns result, s') ->
  s' = snd (lsblk_result self s)
  /\ exists parts,
       result = BlockDevicePartitions.sorted_items parts
       /\ forall r, lsblk_loads (output (fst (lsblk_result self s))) = Some r ->
            match r !! "blockdevices" with
            | Some (dev0 :: _) =>
                match node_children dev0, node_fields dev0 !! "name" with
                | Some cs, Some name =>
                    BlockDevicePartitions.partitions_loop
                      ("/dev/" +:+ fmt name)
                      (str_len (basename (BlockDevice.path self)))
                      cs ∅ = Returns parts
                | _, _ => parts = ∅
                end
            | _ => parts = ∅
            end.
Proof.
  unfold BlockDevicePartitions.partitions, wbind, up, lsblk_result,
    partprobe_cmd, lsblk_cmd.
  rewrite !run_exec.
  set (s1 := snd (exec _ None s)).
  set (x := exec _ None s1).
  destruct (contains "not a block device" (output (fst x))); [discriminate|].
  destruct (negb (String.prefix "{" (output (fst x)))); [discriminate|].
  destruct (lsblk_loads (output (fst x))) as [r|]; [|discriminate].
  destruct (r !! "blockdevices") as [[|dev0 devs]|] eqn:Hdevs;
    [| |discriminate].
  - intros Heq. injection Heq as <- <-. split; [reflexivity|].
    exists ∅. split; [reflexivity|]. intros r' Hr'. injection Hr' as <-.
    rewrite Hdevs. reflexivity.
  - destruct (node_children dev0) as [cs|] eqn:Hcs.
    + destruct (node_fields dev0 !! "name") as [name|] eqn:Hname;
        [|discriminate].
      destruct (BlockDevicePartitions.partitions_loop _ _ cs ∅)
        as [parts|e] eqn:Hloop; [|discriminate].
      intros Heq. injection Heq as <- <-. split; [reflexivity|].
      exists parts. split; [reflexivity|]. intros r' Hr'. injection Hr' as <-.
      rewrite Hdevs, Hcs, Hname. exact Hloop.
    + intros Heq. injection Heq as <- <-. split; [reflexivity|].
      exists ∅. split; [reflexivity|]. intros r' Hr'. injection Hr' as <-.
      rewrite Hdevs, Hcs. reflexivity.
Qed.

(** X17.  When [partitions] returns, it has issued [partprobe] and
    [lsblk -J] on the device and nothing else, and the ids of the mapping
    it returns come in ascending order (as strings, so ["10"] is before
    ["2"]) without a repetition. *)
Theorem partitions_sorted_by_id self s result s' :
  BlockDevicePartitions.partitions self s = (Returns result, s') ->
  trace s'
  = (trace s ++ [ECmd ("partprobe " +:+ BlockDevice.path self);
                 ECmd ("/usr/bin/lsblk -J " +:+ BlockDevice.path self)])%list
  /\ StronglySorted String.le result.*1
  /\ NoDup result.*1.
Proof.
  intros Hret.
  destruct (partitions_returns _ _ _ _ Hret) as (-> & parts & -> & _).
  split.
  - unfold lsblk_result. rewrite !trace_exec, <- app_assoc. reflexivity.
  - apply sorted_items_sorted.
Qed.

Lemma partitions_loop_spec (root : string) (n : nat)
    (cs : list (gmap string scalar)) parts out :
  BlockDevicePartitions.partitions_loop root n cs parts = Returns out ->
  (forall k p, out !! k = Some p ->
     parts !! k = Some p \/ from_child root n cs k p)
  /\ (forall k, is_Some (parts !! k) -> is_Some (out !! k))
  /\ (forall part name, In part cs -> part !! "name" = Some (SStr name) ->
        is_Some (out !! str_drop n name)).
Proof.
  revert parts. induction cs as [|part rest IH]; intros parts Hloop.
  - injection Hloop as <-. split; [|split].
    + intros k p Hk. left. exact Hk.
    + intros k Hk. exact Hk.
    + intros part name [].
  - cbn [BlockDevicePartitions.partitions_loop] in Hloop.
    destruct (part !! "name") as [[| | |name]|] eqn:Hname; try discriminate.
    destruct (part !! "size") as [size|] eqn:Hsize; [|discriminate].
    destruct (IH _ Hloop) as (IH1 & IH2 & IH3).
    split; [|split].
    + intros k p Hk. destruct (IH1 k p Hk) as [Hins|Hfrom].
      * destruct (decide (str_drop n name = k)) as [<-|Hne].
        -- rewrite lookup_insert_eq in Hins. injection Hins as <-.
           right. exists part, name, size.
           split; [left; reflexivity|]. repeat split; assumption.
        -- rewrite lookup_insert_ne in Hins by exact Hne. left. exact Hins.
      * right. destruct Hfrom as (part' & name' & size' & Hin & Hrest).
        exists part', name', size'. split; [right; exact Hin|exact Hrest].
    + intros k Hk. apply IH2.
      destruct (decide (str_drop n name = k)) as [<-|Hne].
      * rewrite lookup_insert_eq. eexists. reflexivity.
      * rewrite lookup_insert_ne by exact Hne. exact Hk.
    + intros part' name' [<-|Hin] Hname'.
      * rewrite Hname in Hname'. injection Hname' as <-.
        apply IH2. rewrite lookup_insert_eq. eexists. reflexivity.
      * apply (IH3 part' name' Hin Hname').
Qed.

(** X18.  The mapping [partitions] returns for a device listed with
    children holds exactly those children.  Every entry comes from a
    child: its id is the child's name without as many leading characters
    as the base name of the device path has, and its value is a new
    partition at [/dev/<name of the listed device>] plus the id, with the
    child's size.  Every child with a string name has its id in the
    mapping; so a child named by the base name of the device followed by
    a suffix is filed under the suffix. *)
Theorem partitions_entries self s result s' r dev0 devs cs name :
  BlockDevicePartitions.partitions self s = (Returns result, s') ->
  lsblk_loads (output (fst (lsblk_result self s))) = Some r ->
  r !! "blockdevices" = Some (dev0 :: devs) ->
  node_children dev0 = Some cs ->
  node_fields dev0 !! "name" = Some name ->
  let n := str_len (basename (BlockDevice.path self)) in
  (forall k p, In (k, p) result ->
     from_child ("/dev/" +:+ fmt name) n cs k p)
  /\ (forall part nm, In part cs -> part !! "name" = Some (SStr nm) ->
        exists p, In (str_drop n nm, p) result)
  /\ (forall part suffix,
        In part cs ->
        char_start (basename (BlockDevice.path self)) = true ->
        char_start suffix = true ->
        part !! "name"
        = Some (SStr (basename (BlockDevice.path self) +:+ suffix)) ->
        exists p, In (suffix, p) result).
Proof.
  intros Hret Hr Hdevs Hcs Hname n.
  destruct (partitions_returns _ _ _ _ Hret) as (_ & parts & -> & Hparts).
  specialize (Hparts r Hr). rewrite Hdevs, Hcs, Hname in Hparts.
  destruct (partitions_loop_spec _ _ _ _ _ Hparts) as (H1 & _ & H3).
  assert (forall part nm, In part cs -> part !! "name" = Some (SStr nm) ->
            exists p, In (str_drop n nm, p)
                        (BlockDevicePartitions.sorted_items parts)) as Hall.
  { intros part nm Hin Hnm. destruct (H3 part nm Hin Hnm) as [p Hp].
    exists p. apply list_elem_of_In, sorted_items_elem, Hp. }
  split; [|split].
  - intros k p Hin. apply list_elem_of_In, sorted_items_elem in Hin.
    destruct (H1 k p Hin) as [Hempty|Hfrom]; [|exact Hfrom].
    rewrite lookup_empty in Hempty. discriminate.
  - exact Hall.
  - intros part suffix Hin Hbase Hsuffix Hnm.
    destruct (Hall part _ Hin Hnm) as [p Hp]. exists p.
    unfold n in Hp. rewrite (str_drop_app _ _ Hbase Hsuffix) in Hp. exact Hp.
Qed.

(** X19.  When [partitions] does not get at a listing.  If the output of
    [lsblk -J] says [not a block device], or else does not start with
    [{], [DiskError] is raised and the output is not decoded.  If it
    decodes to no device at all, or to a first device without children,
    the mapping returned is empty.  In each case the two commands were
    issued. *)
Theorem partitions_without_listing self s :
  let o := output (fst (lsblk_result self s)) in
  let s2 := snd (lsblk_result self s) in
  (contains "not a block device" o = true ->
     BlockDevicePartitions.partitions self s
     = (Raises (Std (DiskError
          ["Can not read partitions off something that isn't a block device: "
           +:+ BlockDevice.path self])), s2))
  /\ (contains "not a block device" o = false ->
      String.prefix "{" o = false ->
      BlockDevicePartitions.partitions self s
      = (Raises (Std (DiskError ["Error getting JSON output from:";
                                 "/usr/bin/lsblk -J "
                                 +:+ BlockDevice.path self])), s2))
  /\ (forall r,
        contains "not a block device" o = false ->
        String.prefix "{" o = true ->
        lsblk_loads o = Some r ->
        (r !! "blockdevices" = Some []
         \/ exists dev0 devs,
              r !! "blockdevices" = Some (dev0 :: devs)
              /\ node_children dev0 = None) ->
        BlockDevicePartitions.partitions self s = (Returns [], s2)).
Proof.
  intros o s2. subst o s2.
  unfold BlockDevicePartitions.partitions, wbind, up, lsblk_result,
    partprobe_cmd, lsblk_cmd.
  rewrite !run_exec.
  set (s1 := snd (exec _ None s)).
  set (x := exec _ None s1).
  split; [|split].
  - intros ->. reflexivity.
  - intros -> ->. reflexivity.
  - intros r -> -> -> [Hnone|(dev0 & devs & Hdevs & Hcs)]; simpl.
    + rewrite Hnone. reflexivity.
    + rewrite Hdevs, Hcs. reflexivity.
Qed.
End PartitionsFacts.

(** ** luks2.encrypt *)

Section EncryptFacts.
Context `{HostFiles}.
Implicit Types (self : luks2.t) (partition : Partition.t) (s : Sys).

Lemma encrypt_with_key_file self partition pw (key_size : Z)
    (hash_type : string) (iter_time : Z) key_file (kf : string) s :
  nonempty key_file = Some kf ->
  luks2Encrypt.encrypt self partition pw key_size hash_type iter_time
    key_file s
  = match open_write kf (password_bytes pw) (world s) with
    | (Some (errno, msg), w) =>
        (Raises (Std (OSError errno msg)), mkSys w (trace s))
    | (None, w) =>
        let x :=
          exec (luksFormat_cmd partition key_size hash_type iter_time
                  (abspath kf w)) None (mkSys w (trace s)) in
        if contains "Command successful." (output (fst x))
        then (Returns kf, snd x)
        else (Raises (Std (DiskError
                ["Could not encrypt volume " +:+ dquote
                 +:+ Partition.path partition +:+ dquote +:+ ": "
                 +:+ bytes_repr (output (fst x))])), snd x)
    end.
Proof.
  intros Hkf.
  unfold luks2Encrypt.encrypt, wbind, up, luks2Encrypt.write_key,
    os_path_abspath, luksFormat_cmd, password_bytes.
  rewrite Hkf. simpl.
  destruct (open_write kf _ (world s)) as [[[errno msg]|] w]; [reflexivity|].
  simpl. rewrite run_exec.
  destruct (contains "Command successful." _); reflexivity.
Qed.

(** X20.  [encrypt] with a key file given: the password is written to
    the key file, then the one command [cryptsetup ... luksFormat] is
    issued with the absolute path of the key file; the key file is
    returned when the output holds [Command successful.], and [DiskError]
    is raised when it does not.  The block device is not queried, and the
    key file is left written in either case. *)
Theorem encrypt_outcome self partition pw (key_size : Z)
    (hash_type : string) (iter_time : Z) key_file (kf : string) s w :
  nonempty key_file = Some kf ->
  open_write kf (password_bytes pw) (world s) = (None, w) ->
  let x :=
    exec (luksFormat_cmd partition key_size hash_type iter_time
            (abspath kf w)) None (mkSys w (trace s)) in
  trace (snd x)
  = (trace s
     ++ [ECmd (luksFormat_cmd partition key_size hash_type iter_time
                 (abspath kf w))])%list
  /\ (contains "Command successful." (output (fst x)) = true ->
        luks2Encrypt.encrypt self partition pw key_size hash_type iter_time
          key_file s = (Returns kf, snd x))
  /\ (contains "Command successful." (output (fst x)) = false ->
        exists args,
          luks2Encrypt.encrypt self partition pw key_size hash_type iter_time
            key_file s = (Raises (Std (DiskError args)), snd x)).
Proof.
  intros Hkf Hw x. split; [exact (trace_exec _ _ (mkSys w (trace s)))|].
  rewrite (encrypt_with_key_file _ _ _ _ _ _ _ _ _ Hkf), Hw. fold x.
  cbv zeta. split; intros ->; [reflexivity|]. eexists. reflexivity.
Qed.

(** X21.  When the key file cannot be written, [encrypt] raises the
    [OSError] of the write and issues no command: the partition is not
    formatted. *)
Theorem encrypt_unwritable_key_file self partition pw (key_size : Z)
    (hash_type : string) (iter_time : Z) key_file (kf : string) s w
    (errno : Z) (msg : string) :
  nonempty key_file = Some kf ->
  open_write kf (password_bytes pw) (world s) = (Some (errno, msg), w) ->
  luks2Encrypt.encrypt self partition pw key_size hash_type iter_time
    key_file s
  = (Raises (Std (OSError errno msg)), mkSys w (trace s)).
Proof.
  intros Hkf Hw.
  rewrite (encrypt_with_key_file _ _ _ _ _ _ _ _ _ Hkf), Hw. reflexivity.
Qed.

End EncryptFacts.

(** ** device_state *)

Section DeviceStateFacts.
Context `{HostSysfs}.
Implicit Types (s : Sys) (w : World).

Lemma scan_bus_false w (bus path : string) devices :
  scan_bus w bus path devices = Returns false ->
  forall device_bus, In device_bus devices ->
    exists link,
      readlink ("/sys/bus/" +:+ bus +:+ "/devices/" +:+ device_bus) w
      = inr link
      /\ re_search (root_dir_sub link) path = Some false.
Proof.
  induction devices as [|d rest IH]; intros Hscan device_bus Hin;
    [destruct Hin|].
  cbn [scan_bus] in Hscan.
  destruct (readlink _ w) as [e|link] eqn:Hlink; [discriminate|].
  destruct (re_search (root_dir_sub link) path) as [[|]|] eqn:Hre;
    try discriminate.
  destruct Hin as [<-|Hin].
  - exists link. split; assumption.
  - apply IH; assumption.
Qed.

Lemma scan_buses_false w (path : string) buses :
  scan_buses w path buses = Returns false ->
  forall bus, In bus buses -> ~ on_bus w path bus.
Proof.
  induction buses as [|b rest IH]; intros Hscan bus Hin; [destruct Hin|].
  cbn [scan_buses] in Hscan.
  destruct (path_exists ("/sys/bus/" +:+ b) w) eqn:Hex.
  - destruct (listdir _ w) as [e|devices] eqn:Hls; [discriminate|].
    destruct (scan_bus w b path devices) as [[|]|e] eqn:Hbus;
      try discriminate.
    destruct Hin as [<-|Hin]; [|apply IH; assumption].
    intros (_ & devices' & device_bus & link & Hls' & Hd & Hlink & Hre).
    rewrite Hls in Hls'. injection Hls' as <-.
    destruct (scan_bus_false _ _ _ _ Hbus device_bus Hd) as (l & Hl & Hno).
    rewrite Hlink in Hl. injection Hl as <-.
    rewrite Hre in Hno. discriminate.
  - destruct Hin as [<-|Hin]; [|apply IH; assumption].
    intros (Hex' & _). rewrite Hex in Hex'. discriminate.
Qed.

Lemma device_state_frame (name : string) s r s' :
  device_state name s = (r, s') ->
  s' = s
  /\ (r = Returns SNone \/ r = Returns (SBool true) \/ exists e, r = Raises e).
Proof.
  unfold device_state. intros Hstate.
  destruct (flagged_removable (world s) name) as [[|]|e].
  - injection Hstate as <- <-. split; [reflexivity|]. left. reflexivity.
  - destruct (readlink _ (world s)) as [e|link].
    + injection Hstate as <- <-. split; [reflexivity|].
      right. right. eexists. reflexivity.
    + destruct (scan_buses _ _ hotplug_buses) as [[|]|e];
        injection Hstate as <- <-; (split; [reflexivity|]).
      * left. reflexivity.
      * right. left. reflexivity.
      * right. right. eexists. reflexivity.
  - injection Hstate as <- <-. split; [reflexivity|].
    right. right. eexists. reflexivity.
Qed.

(** X23.  [device_state] reads sysfs and leaves the system as it is,
    whatever it answers and also when it raises; its answer is [None] or
    [True], never [False].  It answers [True] only for a device that is
    not flagged removable and that no device of an existing hotplug bus
    (usb, ieee1394, mmc, pcmcia, firewire) matches; and for a device whose
    flag file is there and reads ['1'] it answers [None] at once, whatever
    the buses hold. *)
Theorem device_state_verdict (name : string) s :
  (forall r s',
      device_state name s = (r, s') ->
      s' = s
      /\ (r = Returns SNone \/ r = Returns (SBool true)
          \/ exists e, r = Raises e))
  /\ (forall s',
        device_state name s = (Returns (SBool true), s') ->
        ~ (isfile (removable_flag name) (world s) = true
           /\ read1 (removable_flag name) (world s) = inr "1")
        /\ exists link,
             readlink ("/sys/block/" +:+ name) (world s) = inr link
             /\ forall bus, In bus hotplug_buses ->
                  ~ on_bus (world s) (root_dir_sub link) bus)
  /\ (isfile (removable_flag name) (world s) = true ->
      read1 (removable_flag name) (world s) = inr "1" ->
      device_state name s = (Returns SNone, s)).
Proof.
  split; [intros r s'; apply device_state_frame|].
  unfold device_state, flagged_removable. split.
  - intros s' Hstate.
    destruct (isfile _ (world s)) eqn:Hfile.
    + destruct (read1 _ (world s)) as [e|c] eqn:Hread; [discriminate|].
      destruct (String.eqb c "1") eqn:Hc; [discriminate|].
      destruct (readlink _ (world s)) as [e|link] eqn:Hlink; [discriminate|].
      destruct (scan_buses _ _ hotplug_buses) as [[|]|e] eqn:Hscan;
        try discriminate.
      split.
      * intros [_ Hone]. injection Hone as ->. discriminate.
      * exists link. split; [reflexivity|].
        apply (scan_buses_false _ _ _ Hscan).
    + destruct (readlink _ (world s)) as [e|link] eqn:Hlink; [discriminate|].
      destruct (scan_buses _ _ hotplug_buses) as [[|]|e] eqn:Hscan;
        try discriminate.
      split.
      * intros [Hf _]. discriminate.
      * exists link. split; [reflexivity|].
        apply (scan_buses_false _ _ _ Hscan).
  - intros -> ->. reflexivity.
Qed.
End DeviceStateFacts.


(** ** The further properties at concrete devices *)

Lemma session_rejects_other_modes_witness :
  exists args,
    @Filesystem.__enter__ quiet_host mbr_session (idle quiet_host [])
    = (Raise (DiskError args), idle quiet_host [])
    /\ @Filesystem.session quiet_host unit unit mbr_session failing_body
         (tt, idle quiet_host [])
       = (Raise (DiskError args), (tt, idle quiet_host [])).
Proof.
  apply (@session_rejects_other_modes quiet_host unit unit mbr_session
           failing_body tt (idle quiet_host [])).
  discriminate.
Defined.

Lemma enter_writes_label_witness :
  @Filesystem.__enter__ quiet_host sda_session (idle quiet_host [])
  = (Ok sda_session,
     @mkSys quiet_host [] [ECmd "/usr/bin/parted -s /dev/sda mklabel gpt"])
  /\ exists args,
       @Filesystem.session failing_host unit unit sda_session failing_body
         (tt, idle failing_host [])
       = (Raise (DiskError args),
          (tt, @mkSys failing_host []
                 [ECmd "/usr/bin/parted -s /dev/sda mklabel gpt"])).
Proof.
  split.
  - apply (proj1 (proj2 (@enter_writes_label quiet_host unit unit sda_session
                           failing_body tt (idle quiet_host [])
                           (SStr "/dev/sda") (fun s0 => eq_refl) eq_refl))).
    reflexivity.
  - destruct (proj2 (proj2 (@enter_writes_label failing_host unit unit
                              sda_session failing_body tt
                              (idle failing_host []) (SStr "/dev/sda")
                              (fun s0 => eq_refl) eq_refl)))
      as (args & _ & Hsession); [discriminate|].
    exists args. exact Hsession.
Defined.

Lemma session_use_entire_disk_witness :
  exists s',
    @Filesystem.session quiet_host unit unit sda_session
      (fun fs => lift (Filesystem.use_entire_disk fs (Some "luks2")))
      (tt, idle quiet_host [])
    = (Ok (Some tt), (tt, s'))
    /\ trace s'
       = [ECmd "/usr/bin/parted -s /dev/sda mklabel gpt";
          ECmd "/usr/bin/parted -s /dev/sda mkpart primary fat32 1MiB 513MiB";
          ECmd ("/usr/bin/parted -s /dev/sda name 1 " +:+ dquote +:+ "EFI"
                +:+ dquote);
          ECmd "/usr/bin/parted -s /dev/sda set 1 boot on";
          ECmd "/usr/bin/parted -s /dev/sda set 1 esp on";
          ECmd "/usr/bin/parted -s /dev/sda mkpart primary 513MiB 100%";
          ECmd "sync"].
Proof.
  exact (@session_use_entire_disk quiet_host unit sda_session tt
           (idle quiet_host []) (SStr "/dev/sda") (Some "luks2")
           (fun s0 => eq_refl) eq_refl eq_refl).
Defined.

Lemma parted_calls_report_exit_code_witness :
  (exists b : bool,
     @Filesystem.add_partition failing_host sda_session "primary" "1MiB"
       "513MiB" (Some "fat32") (idle failing_host [])
     = (Ok b,
        @mkSys failing_host []
          [ECmd "/usr/bin/parted -s /dev/sda mkpart primary fat32 1MiB 513MiB"])
     /\ (b = true <-> 1 = 0))
  /\ exists b : bool,
       @Filesystem.set_name quiet_host sda_session 0 "EFI" (idle quiet_host [])
       = (Ok b,
          @mkSys quiet_host []
            [ECmd ("/usr/bin/parted -s /dev/sda name 1 " +:+ dquote +:+ "EFI"
                   +:+ dquote)])
       /\ (b = true <-> 0 = 0).
Proof.
  split.
  - exact (proj1 (@parted_calls_report_exit_code failing_host sda_session
                    (idle failing_host []) (SStr "/dev/sda") "primary" "1MiB"
                    "513MiB" (Some "fat32") 0 "EFI" "boot on"
                    (fun s0 => eq_refl)) _ eq_refl).
  - exact (proj1 (proj2 (proj2 (@parted_calls_report_exit_code quiet_host
                                  sda_session (idle quiet_host [])
                                  (SStr "/dev/sda") "primary" "1MiB" "513MiB"
                                  (Some "fat32") 0 "EFI" "boot on"
                                  (fun s0 => eq_refl)))) _ eq_refl).
Defined.

Lemma untyped_device_blocks_parted_witness :
  exists args,
    @Filesystem.__enter__ quiet_host untyped_session (idle quiet_host [])
    = (Raise (DiskError args), idle quiet_host [])
    /\ @Filesystem.use_entire_disk quiet_host untyped_session None
         (idle quiet_host [])
       = (Raise (DiskError args), idle quiet_host []).
Proof.
  destruct (@untyped_device_blocks_parted quiet_host untyped_session
              (idle quiet_host []) eq_refl)
    as (args & Henter & _ & _ & _ & Huse).
  exists args. split; [apply Henter; reflexivity|apply Huse].
Defined.

Lemma device_DiskError_iff_witness :
  (exists args s',
     @BlockDevice.device quiet_host untyped (idle quiet_host [])
     = (Raise (DiskError args), s'))
  /\ (BlockDevice.info sda !! "type" = None
      \/ (BlockDevice.info sda !! "type" = Some (SStr "crypt")
          /\ BlockDevice.info sda !! "pkname" = None) ->
      exists args s',
        @BlockDevice.device quiet_host sda (idle quiet_host [])
        = (Raise (DiskError args), s')).
Proof.
  split.
  - apply (proj2 (@device_DiskError_iff quiet_host untyped
                    (idle quiet_host []))).
    left. reflexivity.
  - apply (proj2 (@device_DiskError_iff quiet_host sda (idle quiet_host []))).
Defined.

Lemma loop_device_back_file_witness :
  fst (@BlockDevice.device loop_host loop0 (idle loop_host []))
  = Ok (SStr "/srv/disk.img").
Proof.
  rewrite (@loop_device_back_file loop_host loop0 (idle loop_host []) [] []
             (<["name" := SStr "/dev/loop0"]>
                (<["back-file" := SStr "/srv/disk.img"]> ∅))
             (SStr "/dev/loop0") (SStr "/srv/disk.img")).
  - reflexivity.
  - reflexivity.
  - vm_compute. reflexivity.
  - constructor.
  - reflexivity.
  - reflexivity.
  - reflexivity.
Defined.

Lemma getitem_cases_witness :
  @BlockDevice.__getitem__ quiet_host sda "type" (idle quiet_host [])
  = (Ok (SStr "disk"), idle quiet_host [])
  /\ @BlockDevice.__getitem__ quiet_host sda "size" (idle quiet_host [])
     = (Raise (KeyError ("BlockDevice(/dev/sda) does not contain information: "
                         +:+ dquote +:+ "size" +:+ dquote)),
        idle quiet_host [])
  /\ exists args,
       @BlockDevice.__getitem__ quiet_host untyped "label" (idle quiet_host [])
       = (Raise (DiskError args), idle quiet_host []).
Proof.
  split; [|split].
  - apply (proj1 (@getitem_cases quiet_host sda (idle quiet_host []) "type")).
    reflexivity.
  - apply (proj1 (proj2 (@getitem_cases quiet_host sda (idle quiet_host [])
                           "size")) (SStr "/dev/sda")); reflexivity.
  - apply (proj2 (proj2 (@getitem_cases quiet_host untyped
                           (idle quiet_host []) "label"))); reflexivity.
Defined.

Lemma partition_id_derivation_witness :
  Partition.part_id (Partition.__init__ "/dev/sda2" (Some "2") (SInt (-1))) = "2"
  /\ Partition.part_id (Partition.__init__ "/dev/mapper/luksroot" None
                          (SInt (-1))) = "luksroot".
Proof.
  split.
  - apply (proj1 (partition_id_derivation "/dev/sda2" (Some "2") (SInt (-1)))).
    reflexivity.
  - apply (proj1 (proj1 (proj2 (partition_id_derivation "/dev/mapper/luksroot"
                                  None (SInt (-1)))) eq_refl)).
Defined.

Lemma mount_outcome_witness :
  (exists r self' s',
     @Partition.mount quiet_host "/mnt" (Some "ext4") "" (sda2, idle quiet_host [])
     = (r, (self', s'))
     /\ trace s' = [EMount "/dev/sda2" "/mnt" "ext4" 0 ""]
     /\ r = Ok tt
     /\ Partition.mountpoint self' = Some "/mnt")
  /\ exists r self' s',
       @Partition.mount nomount_host "/mnt" (Some "ext4") ""
         (sda2, idle nomount_host [])
       = (r, (self', s'))
       /\ self' = sda2
       /\ exists msg, r = Raise (OSError 2 msg).
Proof.
  split.
  - destruct (@mount_outcome quiet_host sda2 (idle quiet_host []) "/mnt" ""
                "ext4" (Some "ext4") eq_refl)
      as (r & self' & s' & Heq & _ & Htrace & Hok & _).
    exists r, self', s'. split; [exact Heq|]. split; [exact Htrace|].
    destruct Hok as [-> ->]; [discriminate|]. split; reflexivity.
  - destruct (@mount_outcome nomount_host sda2 (idle nomount_host []) "/mnt" ""
                "ext4" (Some "ext4") eq_refl)
      as (r & self' & s' & Heq & _ & _ & _ & Hfail).
    exists r, self', s'. split; [exact Heq|]. apply Hfail. reflexivity.
Defined.

Lemma mount_does_not_learn_fs_witness :
  exists args,
    @Partition.mount quiet_host "/mnt/boot" None ""
      (Partition.set_mountpoint (Some "/mnt") sda2,
       @mkSys quiet_host [] [EMount "/dev/sda2" "/mnt" "ext4" 0 ""])
    = (Raise (DiskError args),
       (Partition.set_mountpoint (Some "/mnt") sda2,
        @mkSys quiet_host [] [EMount "/dev/sda2" "/mnt" "ext4" 0 ""])).
Proof.
  apply (@mount_does_not_learn_fs quiet_host sda2 (idle quiet_host []) "/mnt"
           (Some "ext4") "" (Ok tt)); reflexivity.
Defined.

Lemma btrfs_format_then_mount_witness :
  exists r self'' s'',
    @Partition.mount btrfs_host "/mnt" None ""
      (Partition.set_filesystem (Some "btrfs") sda2,
       @mkSys btrfs_host [] [ECmd "/usr/bin/mkfs.btrfs -f /dev/sda2"])
    = (r, (self'', s''))
    /\ trace s''
       = [ECmd "/usr/bin/mkfs.btrfs -f /dev/sda2";
          EMount "/dev/sda2" "/mnt" "btrfs" 0 ""].
Proof.
  apply (@btrfs_format_then_mount btrfs_host sda2 (idle btrfs_host [])).
  reflexivity.
Defined.

Lemma luks2_with_is_transparent_witness :
  @luks2_with quiet_host unit unit sda_luks
    (fun l => raise (OSError 5 "Input/output error")) (tt, idle quiet_host [])
  = (Raise (OSError 5 "Input/output error"), (tt, idle quiet_host [])).
Proof.
  apply (@luks2_with_is_transparent quiet_host unit unit sda_luks
           (fun l => raise (OSError 5 "Input/output error")) tt
           (idle quiet_host []) (Raise (OSError 5 "Input/output error"))).
  reflexivity.
Defined.

Lemma unlocked_partition_is_fresh_witness :
  Partition.part_id (mapped "luksroot") = "luksroot"
  /\ Partition.filesystem (mapped "luksroot") = None.
Proof.
  destruct (@unlocked_partition_is_fresh quiet_host sda_luks sda2 "luksroot"
              "/tmp/key" (idle quiet_host []) (mapped "luksroot")
              (@mkSys quiet_host ["/dev/mapper/luksroot"]
                 [ECmd "/usr/bin/cryptsetup open /dev/sda2 luksroot --key-file /tmp/key --type luks2"])
              eq_refl)
    as (_ & Hid & _ & Hfs & _).
  split; [apply Hid; reflexivity|exact Hfs].
Defined.

Lemma all_disks_entries_witness :
  keys_distinct
    [(SStr "/dev/sda", row "/dev/sda" "disk");
     (SStr "/dev/sdb", row "/dev/sdb" "disk")]
  /\ Forall (fun e => exists ty, snd e !! "type" = Some ty
                                 /\ eq_str ty "part" = false)
       [(SStr "/dev/sda", row "/dev/sda" "disk");
        (SStr "/dev/sdb", row "/dev/sdb" "disk")].
Proof.
  destruct (@all_disks_entries listing_host None (idle listing_host [])
              [(SStr "/dev/sda", row "/dev/sda" "disk");
               (SStr "/dev/sdb", row "/dev/sdb" "disk")]
              (@mkSys listing_host [] [ECmd lsblk_listing]))
    as (_ & Hd & _ & Hty).
  - vm_compute. reflexivity.
  - split; [exact Hd|]. apply Hty. reflexivity.
Defined.

Lemma all_disks_complete_witness :
  exists k info,
    In (k, info)
      [(SStr "/dev/sda", row "/dev/sda" "disk");
       (SStr "/dev/sda1", row "/dev/sda1" "part");
       (SStr "/dev/sdb", row "/dev/sdb" "disk")]
    /\ key_eq k (SStr "/dev/sda1") = true.
Proof.
  refine (@all_disks_complete listing_host (Some (SBool true))
            (idle listing_host [])
            [(SStr "/dev/sda", row "/dev/sda" "disk");
             (SStr "/dev/sda1", row "/dev/sda1" "part");
             (SStr "/dev/sdb", row "/dev/sdb" "disk")]
            (@mkSys listing_host [] [ECmd lsblk_listing])
            [row "/dev/sda" "disk"; row "/dev/sda1" "part";
             row "/dev/sdb" "disk"]
            _ _ (row "/dev/sda1" "part") (SStr "/dev/sda1") _ _ _).
  - vm_compute. reflexivity.
  - vm_compute. reflexivity.
  - right. left. reflexivity.
  - reflexivity.
  - left. reflexivity.
Defined.


Lemma partitions_sorted_by_id_witness :
  StronglySorted String.le ["1"; "10"; "2"] /\ NoDup ["1"; "10"; "2"].
Proof.
  destruct (@partitions_sorted_by_id json_host
              (toy_files json_host (Some sda_tree)) sda (idle json_host [])
              sda_partitions (@mkSys json_host [] probed))
    as (_ & Hsorted & Hnodup).
  - vm_compute. reflexivity.
  - split; [exact Hsorted|exact Hnodup].
Defined.

Lemma partitions_entries_witness :
  (exists p, In ("1", p) sda_partitions)
  /\ (forall k p, In (k, p) sda_partitions ->
        from_child "/dev/sda" 3 sda_children k p)
  /\ exists p, In ("2", p) sdb_partitions.
Proof.
  destruct (@partitions_entries json_host
              (toy_files json_host (Some sda_tree)) sda (idle json_host [])
              sda_partitions (@mkSys json_host [] probed) sda_tree
              (mkNode (<["name" := SStr "sda"]> ∅) (Some sda_children)) []
              sda_children (SStr "sda"))
    as (Hfrom & _ & Hsuffix).
  - vm_compute. reflexivity.
  - reflexivity.
  - reflexivity.
  - reflexivity.
  - reflexivity.
  - split; [|split].
    + apply (Hsuffix (child "sda1" "512M") "1").
      * right. right. left. reflexivity.
      * reflexivity.
      * reflexivity.
      * reflexivity.
    + exact Hfrom.
    + destruct (@partitions_entries json_host
                  (toy_files json_host (Some sdb_tree)) by_label
                  (idle json_host []) sdb_partitions
                  (snd (@lsblk_result json_host by_label (idle json_host [])))
                  sdb_tree
                  (mkNode (<["name" := SStr "sdb"]> ∅) (Some sdb_children)) []
                  sdb_children (SStr "sdb"))
        as (_ & Hid & _).
      * vm_compute. reflexivity.
      * reflexivity.
      * reflexivity.
      * reflexivity.
      * reflexivity.
      * apply (Hid (child "sdb12" "8G") "sdb12").
        -- left. reflexivity.
        -- reflexivity.
Defined.

Lemma partitions_without_listing_witness :
  (exists args,
     @BlockDevicePartitions.partitions notblk_host
       (toy_files notblk_host None) sda (idle notblk_host [])
     = (Raises (Std (DiskError args)), @mkSys notblk_host [] probed))
  /\ @BlockDevicePartitions.partitions json_host
       (toy_files json_host (Some empty_tree)) sda (idle json_host [])
     = (Returns [], @mkSys json_host [] probed).
Proof.
  split.
  - eexists.
    apply (proj1 (@partitions_without_listing notblk_host
                    (toy_files notblk_host None) sda (idle notblk_host []))).
    reflexivity.
  - apply (proj2 (proj2 (@partitions_without_listing json_host
                           (toy_files json_host (Some empty_tree)) sda
                           (idle json_host []))) empty_tree);
      try reflexivity.
    left. reflexivity.
Defined.

Lemma encrypt_outcome_witness :
  @luks2Encrypt.encrypt luks_host (toy_files luks_host None) sda_luks sda2
    (PwStr "secret") 512 "sha512" 10000 (Some "/tmp/key") (idle luks_host [])
  = (Returns "/tmp/key",
     @mkSys luks_host []
       [ECmd "/usr/bin/cryptsetup -q -v --type luks2 --pbkdf argon2i --hash sha512 --key-size 512 --iter-time 10000 --key-file /tmp/key --use-urandom luksFormat /dev/sda2"])
  /\ exists args,
       @luks2Encrypt.encrypt failing_host (toy_files failing_host None)
         sda_luks sda2 (PwStr "secret") 512 "sha512" 10000 (Some "/tmp/key")
         (idle failing_host [])
       = (Raises (Std (DiskError args)),
          @mkSys failing_host []
            [ECmd "/usr/bin/cryptsetup -q -v --type luks2 --pbkdf argon2i --hash sha512 --key-size 512 --iter-time 10000 --key-file /tmp/key --use-urandom luksFormat /dev/sda2"]).
Proof.
  split.
  - apply (proj1 (proj2 (@encrypt_outcome luks_host (toy_files luks_host None)
                           sda_luks sda2 (PwStr "secret") 512 "sha512" 10000
                           (Some "/tmp/key") "/tmp/key" (idle luks_host []) []
                           eq_refl eq_refl))).
    reflexivity.
  - apply (proj2 (proj2 (@encrypt_outcome failing_host
                           (toy_files failing_host None) sda_luks sda2
                           (PwStr "secret") 512 "sha512" 10000
                           (Some "/tmp/key") "/tmp/key" (idle failing_host [])
                           [] eq_refl eq_refl))).
    reflexivity.
Defined.

Lemma encrypt_unwritable_key_file_witness :
  @luks2Encrypt.encrypt luks_host (toy_files luks_host None) sda_luks sda2
    (PwBytes "secret") 512 "sha512" 10000 (Some "/proc/key") (idle luks_host [])
  = (Raises (Std (OSError 13 "Permission denied")), idle luks_host []).
Proof.
  apply (@encrypt_unwritable_key_file luks_host (toy_files luks_host None)
           sda_luks sda2 (PwBytes "secret") 512 "sha512" 10000
           (Some "/proc/key") "/proc/key" (idle luks_host []) []);
    reflexivity.
Defined.


Lemma device_state_verdict_witness :
  (exists link,
     @readlink quiet_host (toy_sysfs quiet_host false) "/sys/block/sda" [] = inr link
     /\ ~ @on_bus quiet_host (toy_sysfs quiet_host false) []
            (root_dir_sub link) "usb")
  /\ @device_state quiet_host (toy_sysfs quiet_host true) "sdb"
       (idle quiet_host [])
     = (Returns SNone, idle quiet_host [])
  /\ snd (@device_state quiet_host (toy_sysfs quiet_host false) "sdb"
            (idle quiet_host ["/dev/mapper/luksroot"]))
     = idle quiet_host ["/dev/mapper/luksroot"]
  /\ snd (@device_state quiet_host (toy_sysfs quiet_host false) "sdc"
            (idle quiet_host ["/dev/mapper/luksroot"]))
     = idle quiet_host ["/dev/mapper/luksroot"].
Proof.
  split; [|split; [|split]].
  - destruct (proj1 (proj2 (@device_state_verdict quiet_host
                              (toy_sysfs quiet_host false) "sda"
                              (idle quiet_host [])))
                (idle quiet_host []) eq_refl)
      as (_ & link & Hlink & Hbus).
    exists link. split; [exact Hlink|]. apply Hbus. left. reflexivity.
  - apply (proj2 (proj2 (@device_state_verdict quiet_host
                           (toy_sysfs quiet_host true) "sdb"
                           (idle quiet_host []))));
      reflexivity.
  - apply (proj1 (@device_state_verdict quiet_host
                    (toy_sysfs quiet_host false) "sdb"
                    (idle quiet_host ["/dev/mapper/luksroot"]))
             _ _ (surjective_pairing _)).
  - apply (proj1 (@device_state_verdict quiet_host
                    (toy_sysfs quiet_host false) "sdc"
                    (idle quiet_host ["/dev/mapper/luksroot"]))
             _ _ (surjective_pairing _)).
Defined.
